(** * Bard-API: the client class [Bard] of [bardapi/core.py]

    A shallow embedding of the response decoder, the conversation-state
    tracker, credential resolution, session setup and link extraction of
    [bardapi/core.py], followed by the properties established about them.

    Conventions.
    - Python [str] and [bytes] values are both sequences of characters of
      type [string]; one [ascii] is one character (one byte).
    - A Python value that comes out of [json.loads] is a [pyval].
    - A Python call that may raise returns a [result]; the exception classes
      that the code can meet are the constructors of [exn].
    - Mutation of [self] is explicit state passing: an operation returns its
      outcome together with the client after the call.
    - Collaborators that live outside [core.py] (the HTTP transport, the
      translation back ends, [json], helpers of [bardapi.utils], the
      constants of [bardapi.constants]) are [Variable]s of the sections that
      use them. *)

From Stdlib Require Import ZArith Ascii String PrimFloat DecimalString.
From stdpp Require Import gmap strings list fin_maps.

Local Open Scope Z_scope.

(** ** Python strings and bytes *)

Module Str.

Definition dquote : ascii := "034".

(** [s.startswith(p)] *)
Definition startswith (p s : string) : bool := String.prefix p s.

(** [sub in s] *)
Fixpoint contains (sub s : string) : bool :=
  if String.prefix sub s then true
  else match s with
       | "" => false
       | String _ s' => contains sub s'
       end.

(** [s.split(sep)] for a non-empty separator: the pieces between the
    non-overlapping occurrences of [sep], scanned from the left. [skip]
    counts the characters of an occurrence still to be passed over. *)
Fixpoint split_go (sep : string) (skip : nat) (s : string) : list string :=
  match s with
  | "" => [""]
  | String c s' =>
      match skip with
      | S k => split_go sep k s'
      | O =>
          if String.prefix sep s
          then "" :: split_go sep (Nat.pred (String.length sep)) s'
          else match split_go sep 0 s' with
               | piece :: rest => String c piece :: rest
               | [] => [String c ""]
               end
      end
  end.

Definition split (sep s : string) : list string := split_go sep 0 s.

(** [str.isspace] on one character (code points below 256). *)
Definition isspace (c : ascii) : bool :=
  let n := N_of_ascii c in
  ((9 <=? n) && (n <=? 13) || (28 <=? n) && (n <=? 32)
   || (n =? 133) || (n =? 160))%N.

Fixpoint lstrip (s : string) : string :=
  match s with
  | "" => ""
  | String c s' => if isspace c then lstrip s' else s
  end.

(** [s.strip()] *)
Definition strip (s : string) : string :=
  String.rev (lstrip (String.rev (lstrip s))).

(** [s[n:]] *)
Fixpoint drop (n : nat) (s : string) : string :=
  match n, s with
  | O, _ => s
  | S _, "" => ""
  | S k, String _ s' => drop k s'
  end.

(** [bytes.splitlines()]: lines end at ["\n"], ["\r"] or ["\r\n"]; the
    terminators are dropped and a final terminator opens no empty line. *)
Fixpoint splitlines (s : string) : list string :=
  match s with
  | "" => []
  | String c s' =>
      if Ascii.eqb c "010" then "" :: splitlines s'
      else if Ascii.eqb c "013" then
        match s' with
        | String d s'' =>
            if Ascii.eqb d "010" then "" :: splitlines s''
            else "" :: splitlines s'
        | "" => [""]
        end
      else match splitlines s' with
           | line :: rest => String c line :: rest
           | [] => [String c ""]
           end
  end.

Definition hex_digit (n : N) : ascii :=
  ascii_of_N (if (n <? 10)%N then 48 + n else 87 + n)%N.

(** One byte as [repr] of a [bytes] object shows it, inside the quote
    character [q]. *)
Definition repr_byte (q : ascii) (c : ascii) : string :=
  let n := N_of_ascii c in
  if Ascii.eqb c q || Ascii.eqb c "\" then String "\" (String c "")
  else if Ascii.eqb c "009" then "\t"
  else if Ascii.eqb c "010" then "\n"
  else if Ascii.eqb c "013" then "\r"
  else if ((n <? 32) || (127 <=? n))%N
       then String "\" (String "x" (String (hex_digit (n / 16))
                                      (String (hex_digit (n mod 16)) "")))
  else String c "".

Fixpoint repr_bytes_go (q : ascii) (s : string) : string :=
  match s with
  | "" => ""
  | String c s' => repr_byte q c +:+ repr_bytes_go q s'
  end.

(** [repr(b)] for [b : bytes], which is what an f-string prints for it:
    single quotes unless the bytes hold a single quote and no double one. *)
Definition repr_bytes (s : string) : string :=
  let q : ascii :=
    if contains "'" s && negb (contains (String dquote "") s)
    then dquote else "'"%char in
  "b" +:+ String q (repr_bytes_go q s) +:+ String q "".

(** [str(n)] for an [int]. *)
Definition of_int (n : Z) : string := NilEmpty.string_of_int (Z.to_int n).

End Str.

(** ** Python values and exceptions *)

(** The values [json.loads] produces: [None], [bool], [int], [float],
    [str], [list] and [dict] (string keys, in insertion order). *)
#[local] Unset Elimination Schemes.
Inductive pyval : Type :=
| VNone
| VBool (b : bool)
| VInt (n : Z)
| VFloat (f : float)
| VStr (s : string)
| VList (items : list pyval)
| VDict (entries : list (string * pyval)).
#[local] Set Elimination Schemes.

(** The exception classes the code can meet. [JSONDecodeError] is a
    [ValueError]; [Exception] carries the message of a bare
    [raise Exception(...)]; [External] stands for whatever class a
    collaborator raises. *)
Inductive exn : Type :=
| IndexError
| TypeError
| KeyError
| ValueError
| AttributeError
| UnboundLocalError
| Exception (msg : string)
| External (what : string).

Inductive result (A : Type) : Type :=
| Ok (a : A)
| Raise (e : exn).
Arguments Ok {A} a.
Arguments Raise {A} e.

#[global] Instance result_ret : MRet result := @Ok.
#[global] Instance result_bind : MBind result :=
  λ A B f m, match m with Ok a => f a | Raise e => Raise e end.
#[global] Instance result_fmap : FMap result :=
  λ A B f m, match m with Ok a => Ok (f a) | Raise e => Raise e end.

(** [try: m  except Exception: h] *)
Definition try_except {A} (m : result A) (h : A) : A :=
  match m with Ok a => a | Raise _ => h end.

(** The classes named by [except (IndexError, TypeError, KeyError)]. *)
Definition lookup_or_type_error (e : exn) : bool :=
  match e with
  | IndexError | TypeError | KeyError => true
  | _ => false
  end.

Module Py.

(** [bool(v)] *)
Definition truthy (v : pyval) : bool :=
  match v with
  | VNone => false
  | VBool b => b
  | VInt n => negb (n =? 0)
  | VFloat f => negb (PrimFloat.eqb f 0%float)
  | VStr s => negb (String.eqb s "")
  | VList l => match l with [] => false | _ => true end
  | VDict d => match d with [] => false | _ => true end
  end.

Definition is_none (v : pyval) : bool :=
  match v with VNone => true | _ => false end.

Fixpoint str_get (s : string) (i : nat) : option ascii :=
  match s, i with
  | "", _ => None
  | String c _, O => Some c
  | String _ s', S k => str_get s' k
  end.

(** [v[i]] for a literal index [i >= 0]. A [dict] from JSON has string
    keys only, so an integer key is never present. *)
Definition getitem (v : pyval) (i : nat) : result pyval :=
  match v with
  | VList l => match l !! i with Some x => Ok x | None => Raise IndexError end
  | VStr s => match str_get s i with
              | Some c => Ok (VStr (String c ""))
              | None => Raise IndexError
              end
  | VDict _ => Raise KeyError
  | _ => Raise TypeError
  end.

Fixpoint assoc (k : string) (d : list (string * pyval)) : option pyval :=
  match d with
  | [] => None
  | (k', v) :: d' => if String.eqb k k' then Some v else assoc k d'
  end.

(** [v[k]] for a string key [k]. *)
Definition getkey (v : pyval) (k : string) : result pyval :=
  match v with
  | VDict d => match assoc k d with Some x => Ok x | None => Raise KeyError end
  | VList _ | VStr _ => Raise TypeError
  | _ => Raise TypeError
  end.

Fixpoint chars (s : string) : list pyval :=
  match s with
  | "" => []
  | String c s' => VStr (String c "") :: chars s'
  end.

(** The items a [for] loop or a comprehension visits. *)
Definition iter (v : pyval) : result (list pyval) :=
  match v with
  | VList l => Ok l
  | VStr s => Ok (chars s)
  | VDict d => Ok (map (λ kv, VStr kv.1) d)
  | _ => Raise TypeError
  end.

(** [len(v)] *)
Definition len (v : pyval) : result nat :=
  match v with
  | VList l => Ok (length l)
  | VStr s => Ok (String.length s)
  | VDict d => Ok (length d)
  | _ => Raise TypeError
  end.

(** [v[n:]] *)
Definition slice_from (v : pyval) (n : nat) : result pyval :=
  match v with
  | VList l => Ok (VList (drop n l))
  | VStr s => Ok (VStr (Str.drop n s))
  | VDict _ => Raise KeyError
  | _ => Raise TypeError
  end.

(** [[x] + v]: a list literal on the left. *)
Definition list_add (l : list pyval) (v : pyval) : result pyval :=
  match v with
  | VList r => Ok (VList (l ++ r))
  | _ => Raise TypeError
  end.

(** [v[i] = x] for a value whose item [i] was loaded just before: a list
    is updated, a string refuses the store. A dict with the string keys of
    JSON never gets here, the load of the integer key having raised. *)
Definition setitem (v : pyval) (i : nat) (x : pyval) : result pyval :=
  match v with
  | VList l => if decide (i < length l)%nat then Ok (VList (<[i:=x]> l))
               else Raise IndexError
  | VDict _ => Raise KeyError
  | _ => Raise TypeError
  end.

(** [l[-k]] for [k >= 1]. *)
Definition from_end {A} (l : list A) (k : nat) : result A :=
  if decide (k ≤ length l)%nat
  then match l !! (length l - k)%nat with
       | Some x => Ok x
       | None => Raise IndexError
       end
  else Raise IndexError.

(** [l[i]] for [i >= 0]. *)
Definition at_index {A} (l : list A) (i : nat) : result A :=
  match l !! i with Some x => Ok x | None => Raise IndexError end.

End Py.

(** ** A reader for JSON texts

    [json.loads] itself is a parameter of the client below. [Json.loads] is
    a reader for the fragment of JSON that the worked examples use: ASCII
    text, [null], [true], [false], integers, strings with the
    single-character escapes, arrays and objects. On that fragment it
    returns what [json.loads] returns; a text outside it (a float, a
    [\u] escape, a byte above 127) is refused with [ValueError]. *)

Module Json.

Definition is_ws (c : ascii) : bool :=
  Ascii.eqb c " " || Ascii.eqb c "009" || Ascii.eqb c "010" || Ascii.eqb c "013".

Fixpoint skip_ws (s : string) : string :=
  match s with
  | "" => ""
  | String c s' => if is_ws c then skip_ws s' else s
  end.

Definition unescape (c : ascii) : option ascii :=
  if Ascii.eqb c Str.dquote then Some Str.dquote
  else if Ascii.eqb c "\" then Some "\"%char
  else if Ascii.eqb c "/" then Some "/"%char
  else if Ascii.eqb c "b" then Some "008"%char
  else if Ascii.eqb c "f" then Some "012"%char
  else if Ascii.eqb c "n" then Some "010"%char
  else if Ascii.eqb c "r" then Some "013"%char
  else if Ascii.eqb c "t" then Some "009"%char
  else None.

Definition push (c : ascii) (r : string * string) : string * string :=
  (String c r.1, r.2).

(** The text of a string after its opening quote, and what follows the
    closing quote. *)
Fixpoint parse_string (s : string) : option (string * string) :=
  match s with
  | "" => None
  | String c s' =>
      if Ascii.eqb c Str.dquote then Some ("", s')
      else if Ascii.eqb c "\" then
        match s' with
        | "" => None
        | String e s'' =>
            match unescape e with
            | Some ch => push ch <$> parse_string s''
            | None => None
            end
        end
      else if ((N_of_ascii c <? 32) || (127 <? N_of_ascii c))%N then None
      else push c <$> parse_string s'
  end.

Definition digit_of (c : ascii) : option Z :=
  let n := N_of_ascii c in
  if ((48 <=? n) && (n <=? 57))%N then Some (Z.of_N n - 48) else None.

Fixpoint parse_digits (acc : Z) (s : string) : Z * string :=
  match s with
  | "" => (acc, "")
  | String c s' =>
      match digit_of c with
      | Some d => parse_digits (10 * acc + d) s'
      | None => (acc, s)
      end
  end.

Definition starts_fraction (s : string) : bool :=
  match s with
  | String c _ => Ascii.eqb c "." || Ascii.eqb c "e" || Ascii.eqb c "E"
  | "" => false
  end.

(** [0] or a digit string without a leading zero. *)
Definition parse_nat (s : string) : option (Z * string) :=
  match s with
  | "" => None
  | String c s' =>
      match digit_of c with
      | None => None
      | Some d =>
          let '(n, rest) := if d =? 0 then (0, s') else parse_digits d s' in
          if starts_fraction rest then None else Some (n, rest)
      end
  end.

Definition parse_int (s : string) : option (pyval * string) :=
  match s with
  | String "-" s' => '(n, rest) ← parse_nat s'; Some (VInt (- n), rest)
  | _ => '(n, rest) ← parse_nat s; Some (VInt n, rest)
  end.

Definition expect (w : string) (v : pyval) (s : string)
  : option (pyval * string) :=
  if String.prefix w s then Some (v, Str.drop (String.length w) s) else None.

(** [d[k] = v]: a repeated key keeps its place and takes the new value. *)
Fixpoint dict_set (k : string) (v : pyval) (d : list (string * pyval))
  : list (string * pyval) :=
  match d with
  | [] => [(k, v)]
  | (k', v') :: d' =>
      if String.eqb k k' then (k, v) :: d' else (k', v') :: dict_set k v d'
  end.

Fixpoint parse_value (fuel : nat) (s : string) : option (pyval * string) :=
  match fuel with
  | O => None
  | S fuel =>
      match s with
      | "" => None
      | String c s' =>
          if Ascii.eqb c "n" then expect "ull" VNone s'
          else if Ascii.eqb c "t" then expect "rue" (VBool true) s'
          else if Ascii.eqb c "f" then expect "alse" (VBool false) s'
          else if Ascii.eqb c Str.dquote then
            '(str, rest) ← parse_string s'; Some (VStr str, rest)
          else if Ascii.eqb c "[" then
            match skip_ws s' with
            | String "]" rest => Some (VList [], rest)
            | s1 => '(items, rest) ← parse_items fuel s1;
                    Some (VList items, rest)
            end
          else if Ascii.eqb c "{" then
            match skip_ws s' with
            | String "}" rest => Some (VDict [], rest)
            | s1 => '(d, rest) ← parse_members fuel [] s1;
                    Some (VDict d, rest)
            end
          else parse_int s
      end
  end
with parse_items (fuel : nat) (s : string) : option (list pyval * string) :=
  match fuel with
  | O => None
  | S fuel =>
      '(v, r) ← parse_value fuel s;
      match skip_ws r with
      | String "]" rest => Some ([v], rest)
      | String "," rest =>
          '(vs, rest') ← parse_items fuel (skip_ws rest);
          Some (v :: vs, rest')
      | _ => None
      end
  end
with parse_members (fuel : nat) (d : list (string * pyval)) (s : string)
  : option (list (string * pyval) * string) :=
  match fuel with
  | O => None
  | S fuel =>
      match s with
      | String "034" s' =>
          '(k, r) ← parse_string s';
          match skip_ws r with
          | String ":" r1 =>
              '(v, r2) ← parse_value fuel (skip_ws r1);
              let d' := dict_set k v d in
              match skip_ws r2 with
              | String "}" rest => Some (d', rest)
              | String "," rest => parse_members fuel d' (skip_ws rest)
              | _ => None
              end
          | _ => None
          end
      | _ => None
      end
  end.

(** [json.loads(s)] on the fragment. *)
Definition loads (s : string) : result pyval :=
  match parse_value (2 * String.length s + 2) (skip_ws s) with
  | Some (v, rest) =>
      match skip_ws rest with
      | "" => Ok v
      | _ => Raise ValueError
      end
  | None => Raise ValueError
  end.

(** A JSON text for a value of the fragment, in the layout of
    [json.dumps]; the worked examples build response bodies with it. A
    float, which the fragment does not have, is written as [NaN]. *)
Definition escape_char (c : ascii) : string :=
  if Ascii.eqb c Str.dquote then String "\" (String Str.dquote "")
  else if Ascii.eqb c "\" then "\\"
  else if Ascii.eqb c "010" then "\n"
  else if Ascii.eqb c "013" then "\r"
  else if Ascii.eqb c "009" then "\t"
  else if Ascii.eqb c "008" then "\b"
  else if Ascii.eqb c "012" then "\f"
  else String c "".

Fixpoint escape (s : string) : string :=
  match s with
  | "" => ""
  | String c s' => escape_char c +:+ escape s'
  end.

Definition quoted (s : string) : string :=
  String Str.dquote (escape s) +:+ String Str.dquote "".

Fixpoint join (sep : string) (l : list string) : string :=
  match l with
  | [] => ""
  | [x] => x
  | x :: l' => x +:+ sep +:+ join sep l'
  end.

Fixpoint dumps (v : pyval) : string :=
  match v with
  | VNone => "null"
  | VBool true => "true"
  | VBool false => "false"
  | VInt n => Str.of_int n
  | VFloat _ => "NaN"
  | VStr s => quoted s
  | VList l => "[" +:+ join ", " (map dumps l) +:+ "]"
  | VDict d =>
      "{" +:+ join ", " (map (λ kv, quoted kv.1 +:+ ": " +:+ dumps kv.2) d)
      +:+ "}"
  end.

End Json.

(** ** Requests, responses and the outside world *)

(** [requests.Response]: [resp.content] (and [resp.text], the same
    characters) and [resp.status_code]. *)
Record Response := {
  content : string;
  status_code : Z
}.
Definition text (r : Response) : string := content r.

(** The call [build_input_text_struct(input_text, self.conversation_id,
    self.response_id, self.choice_id, image_url, image_name, tools=...)] of
    lines 260-268 and 670-678. The helper is in [bardapi/utils.py], outside
    the sources at hand; the envelope it builds is kept as the arguments it
    is given. *)
Record InputTextStruct := {
  its_input_text : pyval;
  its_conversation_id : pyval;
  its_response_id : pyval;
  its_choice_id : pyval;
  its_image_url : pyval;
  its_image_name : option string;
  its_tools : option (list pyval)
}.

(** What goes into [data["f.req"]], before [json.dumps]. The builders of
    the two export envelopes are in [bardapi/utils.py] too and are kept as
    their arguments. *)
Inductive Payload :=
| TextPayload (s : InputTextStruct)
| ImagePayload (input_data_struct : pyval)
| SpeechPayload (input_text_struct : pyval)
| ExportPayload (conv_id resp_id choice_id : pyval) (title : string)
| ReplitPayload (instructions : pyval) (code : pyval) (filename : option string).

Record Request := {
  url : string;
  params : list (string * string);
  f_req : Payload;
  at_token : pyval
}.

(** [requests.Session], as far as [_get_session] configures it. *)
Record Session := {
  headers : gmap string string;
  cookies : gmap string string;
  session_proxies : option (gmap string string)
}.

(** One of [string.digits]. *)
Inductive digit := D0 | D1 | D2 | D3 | D4 | D5 | D6 | D7 | D8 | D9.

Definition digit_value (d : digit) : Z :=
  match d with
  | D0 => 0 | D1 => 1 | D2 => 2 | D3 => 3 | D4 => 4
  | D5 => 5 | D6 => 6 | D7 => 7 | D8 => 8 | D9 => 9
  end.

(** The instance attributes of [Bard]. *)
Record Bard := {
  cookie_dict : option (gmap string string);
  multi_cookies_bool : bool;
  token : string;
  proxies : option (gmap string string);
  timeout : Z;
  _reqid : Z;
  conversation_id : pyval;
  response_id : pyval;
  choice_id : pyval;
  session : Session;
  SNlM0e : pyval;
  language : option string;
  run_code : bool;
  google_translator_api_key : option string;
  og_pid : string;
  rot : string;
  exp_id : string;
  init_value : string
}.

(** How the snippet that line 356 runs ends. It runs in the frame of
    [get_answer], after the identifiers and the counter are stored, with
    [self] and [bard_answer] in scope: it may change both. [Returned] is a
    snippet that ran to its end or raised an [Exception], which line 357
    swallows; [Escaped] is one that raised what [except Exception] lets
    through, [SystemExit] or [KeyboardInterrupt]. In both cases the client
    is as the snippet left it. *)
Inductive Exec :=
| Returned (self : Bard) (bard_answer : pyval)
| Escaped (e : exn) (self : Bard).

(** Everything a call observes of the world outside the process: the
    network, the environment, the browser cookie store, the random source
    and the translation services. Each may fail with an exception of its
    own. *)
Record World := {
  http_get : Session → string → result Response;
  http_post : Session → Request → result Response;
  getenv : string → option string;
  extract_bard_cookie : bool → result (gmap string string);
  random_digits : digit * digit * digit * digit;
  uuid4_hex : string;
  upload_image : string → result pyval;
  (** [GoogleTranslator(source, target)], giving its [translate] method *)
  GoogleTranslator : string → string → result (pyval → result pyval);
  (** [google_official_translator.translate(text, target_language)] *)
  client_translate : pyval → string → result pyval;
  (** [google_official_translator(text, target_language)] *)
  client_call : pyval → string → result pyval;
  (** [langdetect.detect] *)
  detect : string → result string;
  (** [exec(code)] at line 356, in the frame of [get_answer]: the client
      and the mapping about to be returned are in its reach *)
  exec_code : pyval → Bard → pyval → Exec
}.

(** [self.conversation_id, self.response_id, self.choice_id = ids] *)
Definition set_ids (self : Bard) (ids : pyval * pyval * pyval) : Bard :=
  let '(c, r, ch) := ids in
  {| cookie_dict := cookie_dict self;
     multi_cookies_bool := multi_cookies_bool self;
     token := token self;
     proxies := proxies self;
     timeout := timeout self;
     _reqid := _reqid self;
     conversation_id := c;
     response_id := r;
     choice_id := ch;
     session := session self;
     SNlM0e := SNlM0e self;
     language := language self;
     run_code := run_code self;
     google_translator_api_key := google_translator_api_key self;
     og_pid := og_pid self;
     rot := rot self;
     exp_id := exp_id self;
     init_value := init_value self |}.

(** [(self.conversation_id, self.response_id, self.choice_id)] *)
Definition client_ids (self : Bard) : pyval * pyval * pyval :=
  (conversation_id self, response_id self, choice_id self).

(** [self._reqid += 100000] *)
Definition bump_reqid (self : Bard) : Bard :=
  {| cookie_dict := cookie_dict self;
     multi_cookies_bool := multi_cookies_bool self;
     token := token self;
     proxies := proxies self;
     timeout := timeout self;
     _reqid := _reqid self + 100000;
     conversation_id := conversation_id self;
     response_id := response_id self;
     choice_id := choice_id self;
     session := session self;
     SNlM0e := SNlM0e self;
     language := language self;
     run_code := run_code self;
     google_translator_api_key := google_translator_api_key self;
     og_pid := og_pid self;
     rot := rot self;
     exp_id := exp_id self;
     init_value := init_value self |}.

(** ** Link extraction: [Bard._extract_links] *)

Definition is_link (item : string) : bool :=
  Str.startswith "http" item && negb (Str.contains "favicon" item).

(** The [for] loop keeps [links] as its accumulator: a nested list extends
    it with the links found inside, a qualifying string is appended, and
    every other item leaves it as it is. Data that is no list is not
    scanned at all. *)
Fixpoint _extract_links (data : pyval) : list pyval :=
  match data with
  | VList items =>
      foldl (λ links item,
               match item with
               | VList _ => links ++ _extract_links item
               | VStr s => if is_link s then links ++ [item] else links
               | _ => links
               end) [] items
  | _ => []
  end.

(** ** The anti-CSRF nonce

    [re.findall] with the pattern of line 181: the word nonce, an equals
    sign, a double quote, a non-empty group of characters other than the
    double quote, and a closing double quote. *)

Module Nonce.

Definition opening : string := "nonce=" +:+ String Str.dquote "".

(** The longest run of characters other than the double quote. *)
Fixpoint run (s : string) : string * string :=
  match s with
  | "" => ("", "")
  | String c s' =>
      if Ascii.eqb c Str.dquote then ("", s)
      else let '(g, rest) := run s' in (String c g, rest)
  end.

(** A match of the pattern at the head of [s]: the group and the length
    of the whole match. The class is greedy and can only be followed by a
    quote, so the match exists exactly when the run is non-empty and a
    quote ends it. *)
Definition match_here (s : string) : option (string * nat) :=
  if String.prefix opening s then
    let '(g, rest) := run (Str.drop (String.length opening) s) in
    match g, rest with
    | String _ _, String _ _ =>
        Some (g, (String.length opening + String.length g + 1)%nat)
    | _, _ => None
    end
  else None.

(** The groups of the non-overlapping matches, leftmost first. *)
Fixpoint findall_go (skip : nat) (s : string) : list string :=
  match s with
  | "" => []
  | String _ s' =>
      match skip with
      | S k => findall_go k s'
      | O =>
          match match_here s with
          | Some (g, n) => g :: findall_go (Nat.pred n) s'
          | None => findall_go 0 s'
          end
      end
  end.

Definition findall (s : string) : pyval := VList (VStr <$> findall_go 0 s).

End Nonce.

(** ** The client *)

(** The library of the answer object returned by [ask]
    ([bardapi/models/result.py], not part of the sources at hand): what
    [ask] uses of a [BardResult] and of its drafts. *)
Class ResultModel := {
  BardResult : Type;
  BardDraft : Type;
  BardResult_init : pyval → result BardResult;
  result_conversation_id : BardResult → pyval;
  result_response_id : BardResult → pyval;
  drafts : BardResult → list BardDraft;
  draft_id : BardDraft → pyval
}.

Section Client.

(** [json.loads] on a text. *)
Variable json_loads : string → result pyval.
(** [bardapi.utils.build_bard_answer(parsed_answer, images, program_lang,
    code, status_code)]. *)
Variable build_bard_answer :
  pyval → list pyval → pyval → pyval → Z → result pyval.
Context `{ResultModel}.
(** [base64.b64decode] *)
Variable b64decode : pyval → result string.
(** [repr] of a float, a list or a dict, for f-strings. *)
Variable repr_other : pyval → string.
(** The constants of [bardapi/constants.py] and the [Tool] enumeration. *)
Variable ALLOWED_LANGUAGES : gset string.
Variable REPLIT_SUPPORT_PROGRAM_LANGUAGES : gmap string string.
Variable SESSION_HEADERS : gmap string string.
Variable TEXT_GENERATION_WEB_SERVER_PARAM : string.
Variable Tool : Type.
Variable tool_value : Tool → pyval.

(** [f"{v}"] *)
Definition format (v : pyval) : string :=
  match v with
  | VStr s => s
  | VNone => "None"
  | VBool true => "True"
  | VBool false => "False"
  | VInt n => Str.of_int n
  | _ => repr_other v
  end.

(** [json.loads(v)] for a value [v] that is not known to be a string. *)
Definition loads_value (v : pyval) : result pyval :=
  match v with
  | VStr s => json_loads s
  | _ => Raise TypeError
  end.

(** [json.loads(line)[0][2]] *)
Definition payload_of_line (line : string) : result pyval :=
  j ← json_loads line; a ← Py.getitem j 0; Py.getitem a 2.

Definition nl : string := String "010" "".

(** The mapping returned when the payload slot is empty. *)
Definition response_error (resp : Response) : pyval :=
  VDict [("content",
          VStr ("Response Error: " +:+ Str.repr_bytes (content resp) +:+ ". "
                +:+ nl +:+ "Unable to get response."
                +:+ nl +:+ "Please double-check the cookie values and verify your network environment or google account."))].

(** [self.language is not None and self.language not in ALLOWED_LANGUAGES] *)
Definition foreign_language (self : Bard) : option string :=
  match language self with
  | Some l => if decide (l ∈ ALLOWED_LANGUAGES) then None else Some l
  | None => None
  end.

(** [self.language not in ALLOWED_LANGUAGES] *)
Definition language_not_allowed (self : Bard) : bool :=
  match language self with
  | Some l => bool_decide (l ∉ ALLOWED_LANGUAGES)
  | None => true
  end.

Definition stream_generate : string :=
  "https://gemini.google.com/_/BardChatUi/data/assistant.lamda.BardFrontendService/StreamGenerate".
Definition batchexecute : string :=
  "https://gemini.google.com/_/BardChatUi/data/batchexecute".

(** *** [Bard._get_token] (lines 94-139)

    [self] is only partly built when the constructor calls it: the two
    attributes it reads are arguments here, and the cookie dictionary it
    may store comes back with the token. *)
Definition required_cookies : list string :=
  ["__Secure-1PSID"; "__Secure-1PSIDTS"; "__Secure-1PSIDCC"; "NID"].

Definition token_error : exn :=
  Exception "Bard API Key must be provided as the 'token' argument or extracted from the browser.".

(** An optional string that is truthy: neither [None] nor empty. *)
Definition nonempty (o : option string) : option string :=
  match o with
  | Some (String c s) => Some (String c s)
  | _ => None
  end.

Definition _get_token (w : World)
    (self_cookie_dict : option (gmap string string))
    (self_multi_cookies_bool : bool)
    (token : option string) (token_from_browser multi_cookies_bool : bool)
  : result (string * option (gmap string string)) :=
  match nonempty token with
  | Some t => Ok (t, self_cookie_dict)
  | None =>
      match nonempty (getenv w "_BARD_API_KEY") with
      | Some env_token => Ok (env_token, self_cookie_dict)
      | None =>
          if token_from_browser then
            extracted_cookie_dict ← extract_bard_cookie w multi_cookies_bool;
            let psid := default "" (extracted_cookie_dict !! "__Secure-1PSID") in
            if self_multi_cookies_bool then
              if bool_decide (size extracted_cookie_dict < length required_cookies)%nat
                 || negb (forallb (λ key, bool_decide (is_Some (extracted_cookie_dict !! key)))
                                  required_cookies)
              then Ok (psid, Some extracted_cookie_dict)
              else if bool_decide (extracted_cookie_dict ≠ ∅)
                   then Ok (psid, Some extracted_cookie_dict)
                   else Raise token_error
            else if bool_decide (extracted_cookie_dict ≠ ∅)
                 then Ok (psid, self_cookie_dict)
                 else Raise token_error
          else Raise token_error
      end
  end.

(** *** [Bard._get_session] (lines 141-163) *)
Definition _get_session (token : string)
    (proxies : option (gmap string string))
    (cookie_dict : option (gmap string string))
    (session : option Session) : Session :=
  match session with
  | Some s => s
  | None =>
      let jar : gmap string string := {[ "__Secure-1PSID" := token ]} in
      {| headers := SESSION_HEADERS;
         cookies := match cookie_dict with
                    | Some d => d ∪ jar
                    | None => jar
                    end;
         session_proxies := proxies |}
  end.

(** *** [Bard._get_snim0e] (lines 165-186)

    [re.findall] returns a list, and line 182 compares that list with
    [None]. *)
Definition snim0e_error : exn :=
  Exception ("SNlM0e token value not found. Double-check cookies dict value or set 'auto_cookies' parametes as True."
             +:+ nl +:+ "Occurs due to cookie changes. Re-enter new cookie, restart browser, re-login, or manually refresh cookie.").

Definition status_error (status : Z) : exn :=
  Exception ("Response status code is not 200. Response Status is "
             +:+ Str.of_int status).

Definition _get_snim0e (w : World) (session : Session) : result pyval :=
  response ← http_get w session "https://gemini.google.com/";
  if negb (status_code response =? 200) then Raise (status_error (status_code response))
  else
    let snim0e := Nonce.findall (text response) in
    if Py.is_none snim0e then Raise snim0e_error
    else Ok snim0e.

(** *** [Bard.__init__] (lines 42-92)

    The optional imports of lines 13-18 are taken to have succeeded, so
    the [assert translate] of line 92 passes. *)
Record InitArgs := {
  arg_token : option string;
  arg_timeout : Z;
  arg_proxies : option (gmap string string);
  arg_session : option Session;
  arg_conversation_id : option string;
  arg_google_translator_api_key : option string;
  arg_language : option string;
  arg_run_code : bool;
  arg_token_from_browser : bool;
  arg_multi_cookies_bool : bool;
  arg_cookie_dict : option (gmap string string)
}.

(** [int("".join(random.choices(string.digits, k=4)))] *)
Definition seed_of (ds : digit * digit * digit * digit) : Z :=
  let '(a, b, c, d) := ds in
  1000 * digit_value a + 100 * digit_value b + 10 * digit_value c
  + digit_value d.

Definition init (w : World) (a : InitArgs) : result Bard :=
  '(token, cookie_dict) ←
    _get_token w (arg_cookie_dict a) (arg_multi_cookies_bool a)
      (arg_token a) (arg_token_from_browser a) (arg_multi_cookies_bool a);
  let session := _get_session token (arg_proxies a) cookie_dict (arg_session a) in
  snim0e ← _get_snim0e w session;
  Ok {| cookie_dict := cookie_dict;
        multi_cookies_bool := arg_multi_cookies_bool a;
        token := token;
        proxies := arg_proxies a;
        timeout := arg_timeout a;
        _reqid := seed_of (random_digits w);
        conversation_id := VStr (default "" (nonempty (arg_conversation_id a)));
        response_id := VStr "";
        choice_id := VStr "";
        session := session;
        SNlM0e := snim0e;
        language := match nonempty (arg_language a) with
                    | Some l => Some l
                    | None => getenv w "_BARD_API_LANG"
                    end;
        run_code := arg_run_code a;
        google_translator_api_key := arg_google_translator_api_key a;
        og_pid := "";
        rot := "";
        exp_id := "";
        init_value := "" |}.

(** *** [Bard.get_answer] (lines 188-360)

    Building [translate.Client] (line 233), which happens only when an
    API key is set, is taken not to fail. *)

(** Lines 237-252: the prompt, translated to English when a language
    outside [ALLOWED_LANGUAGES] is configured. *)
Definition translate_input (w : World) (self : Bard) (input_text : string)
  : result pyval :=
  match foreign_language self with
  | Some _ =>
      match google_translator_api_key self with
      | None =>
          translate ← GoogleTranslator w "auto" "en";
          translate (VStr input_text)
      | Some _ => client_translate w (VStr input_text) "en"
      end
  | None => Ok (VStr input_text)
  end.

(** Lines 254-268: the upload and the call of [build_input_text_struct]. *)
Definition text_struct (w : World) (self : Bard) (input_text : pyval)
    (image : option string) (image_name : option string)
    (tool : option Tool) : result InputTextStruct :=
  image_url ← match image with
              | Some bytes => upload_image w bytes
              | None => Ok VNone
              end;
  Ok {| its_input_text := input_text;
        its_conversation_id := conversation_id self;
        its_response_id := response_id self;
        its_choice_id := choice_id self;
        its_image_url := image_url;
        its_image_name := image_name;
        its_tools := (λ t, [tool_value t]) <$> tool |}.

Definition stream_request (self : Bard) (s : InputTextStruct) : Request :=
  {| url := stream_generate;
     params := [("bl", TEXT_GENERATION_WEB_SERVER_PARAM);
                ("_reqid", Str.of_int (_reqid self));
                ("rt", "c")];
     f_req := TextPayload s;
     at_token := SNlM0e self |}.

(** Lines 227-273: the request [get_answer] posts. *)
Definition get_answer_request (w : World) (self : Bard) (input_text : string)
    (image : option string) (image_name : option string)
    (tool : option Tool) : result Request :=
  input_text ← translate_input w self input_text;
  s ← text_struct w self input_text image image_name tool;
  Ok (stream_request self s).

(** Lines 298-306. The loop appends as it goes, so what was gathered
    before an exception stays in [images]. *)
Fixpoint append_images (nested_list images : list pyval)
  : list pyval * option exn :=
  match nested_list with
  | [] => (images, None)
  | img :: rest =>
      match (a ← Py.getitem img 0; b ← Py.getitem a 0; Py.getitem b 0) with
      | Ok u => append_images rest (images ++ [u])
      | Raise e => (images, Some e)
      end
  end.

Definition gather_images (resp_json : pyval) : result (list pyval) :=
  let '(images, raised) :=
    match Py.len resp_json with
    | Raise e => ([], Some e)
    | Ok n =>
        if decide (3 ≤ n)%nat then
          match (a ← Py.getitem resp_json 4; b ← Py.getitem a 0;
                 c ← Py.getitem b 4; Py.iter c) with
          | Raise e => ([], Some e)
          | Ok nested_list => append_images nested_list []
          end
        else ([], None)
    end in
  match raised with
  | None => Ok images
  | Some e => if lookup_or_type_error e then Ok images else Raise e
  end.

(** Lines 313-328: the translator of the answer, and one candidate
    [[x[0], [translator_func(x[1][0])] + x[1][1:], x[2]]]. *)
Definition translator_func (w : World) (self : Bard) (target : string)
  : result (pyval → result pyval) :=
  match google_translator_api_key self with
  | None => GoogleTranslator w "auto" target
  | Some _ => Ok (λ text, client_call w text target)
  end.

Definition translate_choice (f : pyval → result pyval) (x : pyval)
  : result pyval :=
  x0 ← Py.getitem x 0;
  x1 ← Py.getitem x 1;
  fragment ← Py.getitem x1 0;
  translated ← f fragment;
  others ← Py.slice_from x1 1;
  contents ← Py.list_add [translated] others;
  x2 ← Py.getitem x 2;
  Ok (VList [x0; contents; x2]).

Definition translate_answer (w : World) (self : Bard) (parsed_answer : pyval)
  : result pyval :=
  match foreign_language self with
  | Some target =>
      f ← translator_func w self target;
      choices ← Py.getitem parsed_answer 4;
      xs ← Py.iter choices;
      translated ← mapM (translate_choice f) xs;
      Py.setitem parsed_answer 4 (VList translated)
  | None => Ok parsed_answer
  end.

(** Lines 330-337: [program_lang] and [code] of the first fenced block of
    the primary content fragment, or [None] for both when any step
    raises. *)
Definition fence : string := "```".

Definition split_value (sep : string) (v : pyval) : result (list string) :=
  match v with
  | VStr s => Ok (Str.split sep s)
  | _ => Raise AttributeError
  end.

(** [parsed_answer[4][0][1][0]], the primary content fragment. *)
Definition primary_fragment (parsed_answer : pyval) : result pyval :=
  a ← Py.getitem parsed_answer 4;
  b ← Py.getitem a 0;
  c ← Py.getitem b 1;
  Py.getitem c 0.

(** [parsed_answer[4][0][1][0].split(fence)[1]] *)
Definition fenced_block (parsed_answer : pyval) : result string :=
  fragment ← primary_fragment parsed_answer;
  pieces ← split_value fence fragment;
  Py.at_index pieces 1.

Definition extract_code (parsed_answer : pyval) : pyval * pyval :=
  try_except
    (block ← fenced_block parsed_answer;
     first_line ← Py.at_index (Str.split nl block) 0;
     let program_lang := Str.strip first_line in
     block' ← fenced_block parsed_answer;
     Ok (VStr program_lang,
         VStr (Str.drop (String.length program_lang) block')))
    (VNone, VNone).

(** Lines 284-296: the payload line. [None] stands for the empty payload
    slot of line 287; otherwise [resp_dict] and [resp_json] as they are
    after line 296. *)
Definition decode_answer (resp : Response) : result (option (pyval * pyval)) :=
  let lines := Str.splitlines (content resp) in
  line ← Py.from_end lines 5;
  resp_dict ← payload_of_line line;
  if negb (Py.truthy resp_dict) then Ok None
  else
    resp_json ← loads_value resp_dict;
    slot ← Py.getitem resp_json 4;
    if Py.is_none slot then
      line' ← Py.from_end lines 7;
      resp_dict' ← payload_of_line line';
      resp_json' ← loads_value resp_dict';
      Ok (Some (resp_dict', resp_json'))
    else Ok (Some (resp_dict, resp_json)).

(** What a call has in hand when it reaches its return: the error
    mapping of the empty payload slot, or the answer together with the
    three identifiers about to be stored. *)
Inductive Decoded :=
| ErrorAnswer (d : pyval)
| Answer (bard_answer : pyval) (ids : pyval * pyval * pyval).

(** [(bard_answer["conversation_id"], bard_answer["response_id"],
    bard_answer["choices"][0]["id"])] *)
Definition answer_ids (bard_answer : pyval) : result (pyval * pyval * pyval) :=
  c ← Py.getkey bard_answer "conversation_id";
  r ← Py.getkey bard_answer "response_id";
  choices ← Py.getkey bard_answer "choices";
  first ← Py.getitem choices 0;
  ch ← Py.getkey first "id";
  Ok (c, r, ch).

(** Lines 284-349, up to the assignment to [self]. *)
Definition get_answer_decode (w : World) (self : Bard) (resp : Response)
  : result Decoded :=
  decoded ← decode_answer resp;
  match decoded with
  | None => Ok (ErrorAnswer (response_error resp))
  | Some (resp_dict, resp_json) =>
      images ← gather_images resp_json;
      parsed_answer ← loads_value resp_dict;
      parsed_answer ← translate_answer w self parsed_answer;
      let '(program_lang, code) := extract_code parsed_answer in
      bard_answer ← build_bard_answer parsed_answer images program_lang code
                      (status_code resp);
      ids ← answer_ids bard_answer;
      Ok (Answer bard_answer ids)
  end.

Definition get_answer (w : World) (self : Bard) (input_text : string)
    (image : option string) (image_name : option string)
    (tool : option Tool) : result pyval * Bard :=
  match (rq ← get_answer_request w self input_text image image_name tool;
         resp ← http_post w (session self) rq;
         get_answer_decode w self resp) with
  | Raise e => (Raise e, self)
  | Ok (ErrorAnswer d) => (Ok d, self)
  | Ok (Answer bard_answer ids) =>
      let self' := bump_reqid (set_ids self ids) in
      if run_code self then
        match Py.getkey bard_answer "code" with
        | Raise e => (Raise e, self')
        | Ok code =>
            if Py.is_none code then (Ok bard_answer, self')
            else match exec_code w code self' bard_answer with
                 | Returned self'' bard_answer' => (Ok bard_answer', self'')
                 | Escaped e self'' => (Raise e, self'')
                 end
        end
      else (Ok bard_answer, self')
  end.

(** *** [Bard.speech] (lines 362-419) *)
Definition speech_request (self : Bard) (input_text lang : string) : Request :=
  {| url := batchexecute;
     params := [("bl", TEXT_GENERATION_WEB_SERVER_PARAM);
                ("_reqid", Str.of_int (_reqid self));
                ("rt", "c")];
     f_req := SpeechPayload
                (VList [VList [VList
                   [VStr "XqA3Ic";
                    VList [VNone; VStr input_text; VStr lang; VNone; VInt 2]]]]);
     at_token := SNlM0e self |}.

Definition speech (w : World) (self : Bard) (input_text lang : string)
  : result pyval * Bard :=
  (resp ← http_post w (session self) (speech_request self input_text lang);
   line ← Py.at_index (Str.splitlines (content resp)) 3;
   resp_dict ← payload_of_line line;
   if negb (Py.truthy resp_dict) then Ok (response_error resp)
   else
     resp_json ← loads_value resp_dict;
     audio_b64 ← Py.getitem resp_json 0;
     audio_bytes ← b64decode audio_b64;
     Ok (VDict [("audio", VStr audio_bytes);
                ("status_code", VInt (status_code resp))]),
   self).

(** *** [Bard.export_conversation] (lines 421-476) *)
Definition export_conversation (w : World) (self : Bard)
    (bard_answer : pyval) (title : string) : result pyval * Bard :=
  match (conv_id ← Py.getkey bard_answer "conversation_id";
         resp_id ← Py.getkey bard_answer "response_id";
         choices ← Py.getkey bard_answer "choices";
         first ← Py.getitem choices 0;
         choice_id ← Py.getkey first "id";
         resp ← http_post w (session self)
                  {| url := batchexecute;
                     params := [("rpcids", "fuVx7"); ("source-path", "/");
                                ("bl", TEXT_GENERATION_WEB_SERVER_PARAM);
                                ("rt", "c")];
                     f_req := ExportPayload conv_id resp_id choice_id title;
                     at_token := SNlM0e self |};
         line ← Py.at_index (Str.splitlines (content resp)) 3;
         resp_dict ← json_loads line;
         a ← Py.getitem resp_dict 0;
         b ← Py.getitem a 2;
         j ← loads_value b;
         url_id ← Py.getitem j 2;
         Ok (VDict [("url", VStr ("https://g.co/bard/share/" +:+ format url_id));
                    ("status_code", VInt (status_code resp))])) with
  | Raise e => (Raise e, self)
  | Ok d => (Ok d, bump_reqid self)
  end.

(** *** [Bard.export_replit] (lines 729-803) *)
Definition export_replit (w : World) (self : Bard) (code : pyval)
    (program_lang filename : option string)
    (instructions source_path : option string) : result pyval * Bard :=
  let supported : option string :=
    program_lang ≫= (REPLIT_SUPPORT_PROGRAM_LANGUAGES !!.) in
  match (if bool_decide (supported = None) && bool_decide (filename = None)
         then Raise (Exception ("Language " +:+ format (from_option VStr VNone program_lang)
                                +:+ " not supported, please set filename manually."))
         else
           let filename := match filename with
                           | None => supported
                           | Some f => Some f
                           end in
           resp ← http_post w (session self)
                    {| url := batchexecute;
                       params := [("rpcids", "qACoKe");
                                  ("source-path", default "/" source_path);
                                  ("bl", TEXT_GENERATION_WEB_SERVER_PARAM);
                                  ("_reqid", Str.of_int (_reqid self));
                                  ("rt", "c")];
                       f_req := ReplitPayload (VStr (default "" instructions))
                                              code filename;
                       at_token := SNlM0e self |};
           line ← Py.at_index (Str.splitlines (content resp)) 3;
           resp_dict ← json_loads line;
           a ← Py.getitem resp_dict 0;
           b ← Py.getitem a 2;
           j ← loads_value b;
           url ← Py.getitem j 0;
           Ok (VDict [("url", url);
                      ("status_code", VInt (status_code resp))])) with
  | Raise e => (Raise e, self)
  | Ok d => (Ok d, bump_reqid self)
  end.

(** *** [Bard.ask_about_image] (lines 478-655) *)

(** Lines 511-542. [None] is the case in which no branch binds
    [translated_input_text]. *)
Definition image_translate_input (w : World) (self : Bard)
    (input_text : string) (lang : option string) : result (option pyval) :=
  let some_language :=
    bool_decide (language self ≠ None) || bool_decide (lang ≠ None) in
  let no_key := bool_decide (google_translator_api_key self = None) in
  _ ← (if negb no_key then Ok ()
       else if some_language then _ ← GoogleTranslator w "auto" "en"; Ok ()
       else Ok ());
  if bool_decide (language self = None) && bool_decide (lang = None)
  then Ok (Some (VStr input_text))
  else if some_language && language_not_allowed self && no_key then
    translate ← GoogleTranslator w "auto" "en";
    Some <$> translate (VStr input_text)
  else if some_language && language_not_allowed self && negb no_key then
    Some <$> client_translate w (VStr input_text) "en"
  else if (bool_decide (language self = None) || bool_decide (lang = None))
          && language_not_allowed self && no_key then
    translate ← GoogleTranslator w "auto" "en";
    Some <$> translate (VStr input_text)
  else Ok None.

(** Lines 547-566; the three continuation identifiers of this envelope
    are the literal [["", "", ""]] of line 557. *)
Definition image_struct (w : World) (self : Bard)
    (translated_input_text image_url : pyval) (lang : option string) : pyval :=
  VList
    [VNone;
     VList
       [VList [translated_input_text; VInt 0; VNone;
               VList [VList [VList [image_url; VInt 1];
                             VStr "uploaded_photo.jpg"]]];
        VList [from_option VStr VNone
                 (match lang with Some l => Some l | None => language self end)];
        VList [VStr ""; VStr ""; VStr ""];
        VStr "";
        VStr (uuid4_hex w);
        VNone;
        VList [VInt 1];
        VInt 0;
        VList [];
        VList []]].

Definition ask_about_image_request (w : World) (self : Bard)
    (input_text image : string) (lang : option string) : result Request :=
  translated ← image_translate_input w self input_text lang;
  image_url ← upload_image w image;
  translated_input_text ← match translated with
                          | Some t => Ok t
                          | None => Raise UnboundLocalError
                          end;
  Ok {| url := stream_generate;
        params := [("bl", "boq_assistant-bard-web-server_20230716.16_p2");
                   ("_reqid", Str.of_int (_reqid self));
                   ("rt", "c")];
        f_req := ImagePayload
                   (image_struct w self translated_input_text image_url lang);
        at_token := SNlM0e self |}.

(** Lines 596-633: the translation of the answer, inside [try]. The
    seven branches are tried in the order of the source, each [match] being
    one [if] or [elif] with the names its test has shown to be set; [None]
    is the case in which no branch binds [translated_content]. Whatever a
    branch raises, line 631 puts the content itself in its place. *)
Definition image_translate_content (w : World) (self : Bard)
    (input_text : string) (lang : option string) (content : pyval)
  : option pyval :=
  try_except
    (match language self, google_translator_api_key self with
     | None, None => Ok (Some content)                          (* line 597 *)
     | _, _ =>
     match language self, google_translator_api_key self with
     | Some l, None =>                                          (* line 599 *)
         translate ← GoogleTranslator w "en" l;
         Some <$> translate content
     | _, _ =>
     match lang, google_translator_api_key self with
     | Some l, None =>                                          (* line 603 *)
         translate ← GoogleTranslator w "en" l;
         Some <$> translate content
     | _, _ =>
     match lang, language self, google_translator_api_key self with
     | None, None, None =>                                      (* line 607 *)
         us_lang ← detect w input_text;
         translate ← GoogleTranslator w "en" us_lang;
         Some <$> translate content
     | _, _, _ =>
     match language self, google_translator_api_key self with
     | Some l, Some _ =>                                        (* line 614 *)
         Some <$> client_translate w content l
     | _, _ =>
     match lang, google_translator_api_key self with
     | Some l, Some _ =>                                        (* line 619 *)
         Some <$> client_translate w content l
     | _, _ =>
     match language self, lang, google_translator_api_key self with
     | None, None, Some _ =>                                    (* line 623 *)
         us_lang ← detect w input_text;
         Some <$> client_translate w content us_lang
     | _, _, _ => Ok None
     end end end end end end end)
    (Some content).

(** [{"id": x[0], "content": x[1]}] *)
Definition choice_of (x : pyval) : result pyval :=
  id ← Py.getitem x 0;
  c ← Py.getitem x 1;
  Ok (VDict [("id", id); ("content", c)]).

(** Lines 636-648. *)
Definition image_answer (translated_content parsed_answer : pyval)
    (status : Z) : result pyval :=
  ids ← Py.getitem parsed_answer 1;
  conv ← Py.getitem ids 0;
  ids' ← Py.getitem parsed_answer 1;
  rid ← Py.getitem ids' 1;
  factuality ← Py.getitem parsed_answer 3;
  query ← Py.getitem parsed_answer 2;
  text_query ← (if Py.truthy query then Py.getitem query 0 else Ok (VStr ""));
  candidates ← Py.getitem parsed_answer 4;
  xs ← Py.iter candidates;
  choices ← mapM choice_of xs;
  Ok (VDict [("content", translated_content);
             ("conversation_id", conv);
             ("response_id", rid);
             ("factuality_queries", factuality);
             ("text_query", text_query);
             ("choices", VList choices);
             ("links", VList (_extract_links candidates));
             ("images", VList [VStr ""]);
             ("program_lang", VStr "");
             ("code", VStr "");
             ("status_code", VInt status)]).

Definition ask_about_image_decode (w : World) (self : Bard)
    (input_text : string) (lang : option string) (resp : Response)
  : result Decoded :=
  line ← Py.at_index (Str.splitlines (content resp)) 3;
  resp_dict ← payload_of_line line;
  if negb (Py.truthy resp_dict) then Ok (ErrorAnswer (response_error resp))
  else
    parsed_answer ← loads_value resp_dict;
    content ← primary_fragment parsed_answer;
    translated_content ←
      match image_translate_content w self input_text lang content with
      | Some translated_content => Ok translated_content
      | None => Raise UnboundLocalError
      end;
    bard_answer ← image_answer translated_content parsed_answer
                    (status_code resp);
    ids ← answer_ids bard_answer;
    Ok (Answer bard_answer ids).

Definition ask_about_image (w : World) (self : Bard)
    (input_text image : string) (lang : option string)
  : result pyval * Bard :=
  match (rq ← ask_about_image_request w self input_text image lang;
         resp ← http_post w (session self) rq;
         ask_about_image_decode w self input_text lang resp) with
  | Raise e => (Raise e, self)
  | Ok (ErrorAnswer d) => (Ok d, self)
  | Ok (Answer bard_answer ids) =>
      (Ok bard_answer, bump_reqid (set_ids self ids))
  end.

(** *** [Bard.ask] (lines 657-727) *)
Definition ask_request (w : World) (self : Bard) (text : string)
    (image : option string) (image_name : option string)
    (tool : option Tool) : result Request :=
  s ← text_struct w self (VStr text) image image_name tool;
  Ok (stream_request self s).

Definition wrb_prefix : string := "[[" +:+ String Str.dquote "wrb.fr".

(** Lines 696-724; line 709 raises a [dict], which Python turns into a
    [TypeError]. *)
Definition ask_decode (resp : Response)
  : result (BardResult * (pyval * pyval * pyval)) :=
  if negb (status_code resp =? 200) then Raise (status_error (status_code resp))
  else
    let lines := filter (λ line, Str.startswith wrb_prefix line = true)
                   (Str.splitlines (content resp)) in
    jsons ← mapM (λ line, v ← payload_of_line line; loads_value v) lines;
    resp_json ← Py.from_end jsons 1;
    if negb (Py.truthy resp_json) then Raise TypeError
    else
      res ← BardResult_init resp_json;
      res ← (match drafts res with
             | [] => second ← Py.from_end jsons 2; BardResult_init second
             | _ :: _ => Ok res
             end);
      first ← Py.at_index (drafts res) 0;
      Ok (res, (result_conversation_id res, result_response_id res,
                draft_id first)).

Definition ask (w : World) (self : Bard) (text : string)
    (image : option string) (image_name : option string)
    (tool : option Tool) : result BardResult * Bard :=
  match (rq ← ask_request w self text image image_name tool;
         resp ← http_post w (session self) rq;
         ask_decode resp) with
  | Raise e => (Raise e, self)
  | Ok (res, ids) => (Ok res, bump_reqid (set_ids self ids))
  end.

(** *** Sequences of calls *)

(** One call of a public operation, each in the world it meets. *)
Inductive Call :=
| CallGetAnswer (w : World) (input_text : string)
    (image image_name : option string) (tool : option Tool)
| CallSpeech (w : World) (input_text lang : string)
| CallExportConversation (w : World) (bard_answer : pyval) (title : string)
| CallAskAboutImage (w : World) (input_text image : string)
    (lang : option string)
| CallAsk (w : World) (text : string) (image image_name : option string)
    (tool : option Tool)
| CallExportReplit (w : World) (code : pyval)
    (program_lang filename instructions source_path : option string).

(** The client after a call, whether the call returned or raised. *)
Definition after (self : Bard) (c : Call) : Bard :=
  match c with
  | CallGetAnswer w input_text image image_name tool =>
      (get_answer w self input_text image image_name tool).2
  | CallSpeech w input_text lang => (speech w self input_text lang).2
  | CallExportConversation w bard_answer title =>
      (export_conversation w self bard_answer title).2
  | CallAskAboutImage w input_text image lang =>
      (ask_about_image w self input_text image lang).2
  | CallAsk w text image image_name tool =>
      (ask w self text image image_name tool).2
  | CallExportReplit w code program_lang filename instructions source_path =>
      (export_replit w self code program_lang filename instructions
         source_path).2
  end.

End Client.

(** ** Induction on Python values *)

Section PyvalInd.
Variable P : pyval → Prop.
Hypothesis HNone : P VNone.
Hypothesis HBool : ∀ b, P (VBool b).
Hypothesis HInt : ∀ n, P (VInt n).
Hypothesis HFloat : ∀ f, P (VFloat f).
Hypothesis HStr : ∀ s, P (VStr s).
Hypothesis HList : ∀ items, Forall P items → P (VList items).
Hypothesis HDict : ∀ entries, Forall (λ kv, P kv.2) entries → P (VDict entries).

Fixpoint pyval_ind (v : pyval) : P v :=
  match v with
  | VNone => HNone
  | VBool b => HBool b
  | VInt n => HInt n
  | VFloat f => HFloat f
  | VStr s => HStr s
  | VList items =>
      HList items
        ((fix go (l : list pyval) : Forall P l :=
            match l with
            | [] => List.Forall_nil P
            | x :: l' => List.Forall_cons P x l' (pyval_ind x) (go l')
            end) items)
  | VDict entries =>
      HDict entries
        ((fix go (l : list (string * pyval)) : Forall (λ kv, P kv.2) l :=
            match l with
            | [] => List.Forall_nil _
            | kv :: l' => List.Forall_cons _ kv l' (pyval_ind kv.2) (go l')
            end) entries)
  end.
End PyvalInd.

(** ** Link extraction, as the specification words it *)

Module Links.

(** What one item of the scanned list contributes. *)
Definition of_item (item : pyval) : list pyval :=
  match item with
  | VList _ => _extract_links item
  | VStr s => if is_link s then [item] else []
  | _ => []
  end.

(** A value that may stand in the result: a string that starts with
    [http] and holds no [favicon]. *)
Definition link_value (v : pyval) : Prop :=
  ∃ s, v = VStr s ∧ Str.startswith "http" s = true
       ∧ Str.contains "favicon" s = false.

(** The string values a scan of the nested lists passes, in order. *)
Fixpoint nested_strings (data : pyval) : list string :=
  match data with
  | VList items =>
      items ≫= (λ item, match item with
                        | VList _ => nested_strings item
                        | VStr s => [s]
                        | _ => []
                        end)
  | _ => []
  end.

(** The specification's words. A string looks like an absolute URL when
    it opens with a scheme, a letter followed by letters, digits, [+], [-]
    or [.], and [://] comes next; an icon-asset URL is one that ends in
    [.ico]. *)
Definition is_letter (c : ascii) : bool :=
  let n := N_of_ascii c in
  ((65 <=? n) && (n <=? 90) || (97 <=? n) && (n <=? 122))%N.

Definition scheme_char (c : ascii) : bool :=
  let n := N_of_ascii c in
  (is_letter c || (48 <=? n) && (n <=? 57)
   || (n =? 43) || (n =? 45) || (n =? 46))%N.

Fixpoint after_scheme (s : string) : string :=
  match s with
  | String c s' => if scheme_char c then after_scheme s' else s
  | "" => ""
  end.

Definition looks_like_absolute_url (s : string) : bool :=
  match s with
  | String c _ => is_letter c && String.prefix "://" (after_scheme s)
  | "" => false
  end.

Definition icon_asset (s : string) : bool :=
  String.prefix (String.rev ".ico") (String.rev s).

(** The specification's reading of the scan: every nested string that
    looks like an absolute URL and is no icon asset. *)
Definition links_spec (data : pyval) : list pyval :=
  VStr <$> filter (λ s, looks_like_absolute_url s = true ∧ icon_asset s = false)
             (nested_strings data).

End Links.


(** * Helpers outside [core.py], and worked data *)

Module Utils.

(** The keys of the mapping the ask and answer operations return. *)
Definition answer_keys : list string :=
  ["content"; "conversation_id"; "response_id"; "factuality_queries";
   "text_query"; "choices"; "links"; "images"; "program_lang"; "code";
   "status_code"].

(** Modelled from the spec: [build_bard_answer] of [bardapi/utils.py] is
    not among the sources at hand. It returns the mapping with the fixed
    keys of the output contract; the fields are extracted from the resolved
    answer array by fixed position, the positions being those that lines
    636-648 of [ask_about_image] read, and the links are the recursive scan
    of the candidate choices. *)
Definition build_bard_answer (parsed_answer : pyval) (images : list pyval)
    (program_lang code : pyval) (status : Z) : result pyval :=
  content ← primary_fragment parsed_answer;
  ids ← Py.getitem parsed_answer 1;
  conv ← Py.getitem ids 0;
  rid ← Py.getitem ids 1;
  factuality ← Py.getitem parsed_answer 3;
  query ← Py.getitem parsed_answer 2;
  text_query ← (if Py.truthy query then Py.getitem query 0 else Ok (VStr ""));
  candidates ← Py.getitem parsed_answer 4;
  xs ← Py.iter candidates;
  choices ← mapM choice_of xs;
  Ok (VDict [("content", content);
             ("conversation_id", conv);
             ("response_id", rid);
             ("factuality_queries", factuality);
             ("text_query", text_query);
             ("choices", VList choices);
             ("links", VList (_extract_links candidates));
             ("images", VList images);
             ("program_lang", program_lang);
             ("code", code);
             ("status_code", VInt status)]).

(** Modelled from the spec: [BardResult] of [bardapi/models/result.py] is
    not among the sources at hand. A result keeps the conversation id and
    the response id of the resolved answer array and one draft per
    candidate choice, a draft keeping the id of its choice; the positions
    are those of lines 636-648 again. *)
Record Result := {
  r_conversation_id : pyval;
  r_response_id : pyval;
  r_drafts : list pyval
}.

Definition Result_init (input_list : pyval) : result Result :=
  ids ← Py.getitem input_list 1;
  conv ← Py.getitem ids 0;
  rid ← Py.getitem ids 1;
  candidates ← Py.getitem input_list 4;
  xs ← (if Py.truthy candidates then Py.iter candidates else Ok []);
  draft_ids ← mapM (λ x, Py.getitem x 0) xs;
  Ok {| r_conversation_id := conv; r_response_id := rid; r_drafts := draft_ids |}.

#[local] Instance result_model : ResultModel := {|
  BardResult := Result;
  BardDraft := pyval;
  BardResult_init := Result_init;
  result_conversation_id := r_conversation_id;
  result_response_id := r_response_id;
  drafts := r_drafts;
  draft_id := id
|}.

End Utils.

(** The keys of a mapping. *)
Definition keys_of (v : pyval) : option (list string) :=
  match v with
  | VDict d => Some (d.*1)
  | _ => None
  end.

(** The three continuation identifiers a request carries, where its
    envelope has them. *)
Definition sent_ids (rq : Request) : option (pyval * pyval * pyval) :=
  match f_req rq with
  | TextPayload s =>
      Some (its_conversation_id s, its_response_id s, its_choice_id s)
  | ImagePayload (VList [_; VList (_ :: _ :: VList [c; r; ch] :: _)]) =>
      Some (c, r, ch)
  | ExportPayload c r ch _ => Some (c, r, ch)
  | _ => None
  end.

(** [[x[0] for x in parsed_answer[4]]], the ids of the candidate
    choices. *)
Definition choice_ids (parsed_answer : pyval) : result (list pyval) :=
  choices ← Py.getitem parsed_answer 4;
  xs ← Py.iter choices;
  mapM (λ x, Py.getitem x 0) xs.

Module Demo.

(** Stand-ins for the constants of [bardapi/constants.py], which is not
    among the sources at hand. The set of languages is a short one; the
    worked calls take [en] for a language that is in the real set and the
    code [xx], which is no language, for one that is outside. *)
Definition ALLOWED_LANGUAGES : gset string := {[ "en"; "ko"; "ja" ]}.
Definition REPLIT_SUPPORT_PROGRAM_LANGUAGES : gmap string string :=
  {[ "python" := "main.py" ]}.
Definition SESSION_HEADERS : gmap string string :=
  {[ "Host" := "gemini.google.com" ]}.
Definition TEXT_GENERATION_WEB_SERVER_PARAM : string :=
  "boq_assistant-bard-web-server_20240201.08_p9".

(** [base64.b64decode] on the one input the examples decode, the empty
    string. *)
Definition b64decode (v : pyval) : result string :=
  match v with
  | VStr "" => Ok ""
  | VStr _ => Raise (External "base64 text outside the examples")
  | _ => Raise TypeError
  end.

(** A world in which everything works: the given landing page and answer
    come back, no environment variable is set, the browser holds no cookie,
    and the translators hand every text back as it is. *)
Definition world (landing answer : Response) : World :=
  {| http_get := λ _ _, Ok landing;
     http_post := λ _ _, Ok answer;
     getenv := λ _, None;
     extract_bard_cookie := λ _, Ok ∅;
     random_digits := (D0, D0, D4, D2);
     uuid4_hex := "9f1c2d3e4b5a69788796a5b4c3d2e1f0";
     upload_image := λ _, Ok (VStr "/contrib_service/ttl_1d/1");
     GoogleTranslator := λ _ _, Ok (λ text, Ok text);
     client_translate := λ text _, Ok text;
     client_call := λ _ _, Raise TypeError;
     detect := λ _, Ok "en";
     exec_code := λ _ self bard_answer, Returned self bard_answer |}.

(** The same world with a translation service that is down. *)
Definition world_without_translation (landing answer : Response) : World :=
  {| http_get := λ _ _, Ok landing;
     http_post := λ _ _, Ok answer;
     getenv := λ _, None;
     extract_bard_cookie := λ _, Ok ∅;
     random_digits := (D0, D0, D4, D2);
     uuid4_hex := "9f1c2d3e4b5a69788796a5b4c3d2e1f0";
     upload_image := λ _, Ok (VStr "/contrib_service/ttl_1d/1");
     GoogleTranslator := λ _ _, Ok (λ _, Raise (External "TranslationNotFound"));
     client_translate := λ _ _, Raise (External "ServiceUnavailable");
     client_call := λ _ _, Raise TypeError;
     detect := λ _, Ok "en";
     exec_code := λ _ self bard_answer, Returned self bard_answer |}.

(** The same world with a browser that holds the given cookies. *)
Definition world_with_browser (browser : gmap string string)
    (landing answer : Response) : World :=
  {| http_get := λ _ _, Ok landing;
     http_post := λ _ _, Ok answer;
     getenv := λ _, None;
     extract_bard_cookie := λ _, Ok browser;
     random_digits := (D0, D0, D4, D2);
     uuid4_hex := "9f1c2d3e4b5a69788796a5b4c3d2e1f0";
     upload_image := λ _, Ok (VStr "/contrib_service/ttl_1d/1");
     GoogleTranslator := λ _ _, Ok (λ text, Ok text);
     client_translate := λ text _, Ok text;
     client_call := λ _ _, Raise TypeError;
     detect := λ _, Ok "en";
     exec_code := λ _ self bard_answer, Returned self bard_answer |}.

(** A world with [_BARD_API_KEY] set and a browser that holds
    [__Secure-1PSID]. *)
Definition world_with_env (landing answer : Response) : World :=
  {| http_get := λ _ _, Ok landing;
     http_post := λ _ _, Ok answer;
     getenv := λ name, if String.eqb name "_BARD_API_KEY"
                       then Some "g.a000env." else None;
     extract_bard_cookie := λ _, Ok {[ "__Secure-1PSID" := "g.a000browser." ]};
     random_digits := (D0, D0, D4, D2);
     uuid4_hex := "9f1c2d3e4b5a69788796a5b4c3d2e1f0";
     upload_image := λ _, Ok (VStr "/contrib_service/ttl_1d/1");
     GoogleTranslator := λ _ _, Ok (λ text, Ok text);
     client_translate := λ text _, Ok text;
     client_call := λ _ _, Raise TypeError;
     detect := λ _, Ok "en";
     exec_code := λ _ self bard_answer, Returned self bard_answer |}.

(** One line of the streamed body: a [wrb.fr] frame whose third element is
    the payload slot. *)
Definition frame (slot : pyval) : string :=
  Json.dumps (VList [VList [VStr "wrb.fr"; VNone; slot]]).

(** A frame that carries a resolved answer array, JSON inside JSON. *)
Definition answer_frame (resolved : pyval) : string :=
  frame (VStr (Json.dumps resolved)).

Definition body (lines : list string) : string := Json.join nl lines.

Definition page (status : Z) (html : string) : Response :=
  {| content := html; status_code := status |}.

(** A resolved answer array with one candidate choice. *)
Definition resolved (conv rid choice fragment : string) : pyval :=
  VList [VNone; VList [VStr conv; VStr rid]; VList [VStr "hello"]; VNone;
         VList [VList [VStr choice; VList [VStr fragment]; VNone]]].

(** A resolved answer array whose slot 4 is null. *)
Definition resolved_empty : pyval :=
  VList [VNone; VList [VStr "c_1"; VStr "r_1"]; VNone; VNone; VNone].

(** The usual framing: the frame is the fifth line from the end and the
    fourth from the start. *)
Definition framed_body (frame_line : string) : string :=
  body [")]}'"; ""; "131"; frame_line;
        "57"; "[[" +:+ Json.quoted "di" +:+ ", 59]]";
        "27"; "[[" +:+ Json.quoted "e" +:+ ", 4, null, null, 131]]"].

Definition answer_body (resolved : pyval) : string :=
  framed_body (answer_frame resolved).

(** A body with two frames: [early] seven lines from the end, [late] five
    lines from the end. *)
Definition two_frame_body (early late : string) : string :=
  body [")]}'"; ""; "131"; early; "98"; late;
        "57"; "[[" +:+ Json.quoted "di" +:+ ", 59]]";
        "27"; "[[" +:+ Json.quoted "e" +:+ ", 4, null, null, 131]]"].

Definition landing : Response :=
  page 200 ("<script nonce=" +:+ Json.quoted "Xq3" +:+ ">window.WIZ</script>").

Definition session0 : Session :=
  {| headers := SESSION_HEADERS;
     cookies := {[ "__Secure-1PSID" := "g.a000token." ]};
     session_proxies := None |}.

(** A client as the constructor leaves it, with the given language. *)
Definition client (language : option string) : Bard :=
  {| cookie_dict := None;
     multi_cookies_bool := false;
     token := "g.a000token.";
     proxies := None;
     timeout := 20;
     _reqid := 42;
     conversation_id := VStr "";
     response_id := VStr "";
     choice_id := VStr "";
     session := session0;
     SNlM0e := VList [VStr "Xq3"];
     language := language;
     run_code := false;
     google_translator_api_key := None;
     og_pid := "";
     rot := "";
     exp_id := "";
     init_value := "" |}.

Definition args (token : option string) (from_browser multi : bool)
  : InitArgs :=
  {| arg_token := token;
     arg_timeout := 20;
     arg_proxies := None;
     arg_session := None;
     arg_conversation_id := None;
     arg_google_translator_api_key := None;
     arg_language := None;
     arg_run_code := false;
     arg_token_from_browser := from_browser;
     arg_multi_cookies_bool := multi;
     arg_cookie_dict := None |}.

(** The operations with the stand-ins plugged in. *)
Definition get_answer :=
  get_answer Json.loads Utils.build_bard_answer ALLOWED_LANGUAGES
    TEXT_GENERATION_WEB_SERVER_PARAM unit (λ _, VStr "google_docs").
Definition ask_about_image :=
  ask_about_image Json.loads ALLOWED_LANGUAGES.
Definition ask :=
  @ask Json.loads Utils.result_model TEXT_GENERATION_WEB_SERVER_PARAM
    unit (λ _, VStr "google_docs").
Definition speech :=
  speech Json.loads b64decode TEXT_GENERATION_WEB_SERVER_PARAM.
Definition init := init SESSION_HEADERS.

End Demo.

(** ** Worked data *)

(** The nested list of the specification's example, with entries that are
    no strings at every level. *)
Definition links_example : pyval :=
  VList [VList [VStr "https://example.com/a"; VInt 1];
         VNone;
         VList [VBool true;
                VList [VStr "https://example.com/favicon.ico"; VList []]];
         VDict [("k", VInt 2)]].

(** Strings on which the two tests of the code and the words of the
    specification part: one that starts with [http] and is no URL, a URL of
    another scheme, and a page whose address mentions [favicon]. *)
Definition links_apart : pyval :=
  VList [VStr "httpx-is-not-a-url";
         VList [VStr "ftp://example.com/a.txt"];
         VStr "https://example.com/favicon-history.html"].

(** The primary content fragment of the specification's example, and a
    resolved answer array that holds [fragment] in that place. *)
Definition fenced_example : string :=
  "Here:" +:+ nl +:+ "```python" +:+ nl +:+ "print(1)" +:+ nl +:+ "```".


(** ** Worked calls *)

Module Calls.

Import Demo.

(** The world of a first turn that is answered. *)
Definition answered : World :=
  world landing (page 200 (answer_body (resolved "c_1" "r_1" "rc_1" "Hi"))).

(** The mapping [get_answer] returns in that world. *)
Definition hi_answer : pyval :=
  VDict [("content", VStr "Hi"); ("conversation_id", VStr "c_1");
         ("response_id", VStr "r_1"); ("factuality_queries", VNone);
         ("text_query", VStr "hello");
         ("choices",
          VList [VDict [("id", VStr "rc_1"); ("content", VList [VStr "Hi"])]]);
         ("links", VList []); ("images", VList []);
         ("program_lang", VNone); ("code", VNone);
         ("status_code", VInt 200)].

(** A world whose answer has a payload with an empty slot 4 on the primary
    line and a frame with a null payload slot on the fallback line. *)
Definition heartbeat_only : World :=
  world landing
    (page 200 (two_frame_body (frame VNone) (answer_frame resolved_empty))).

(** A world in which the real answer came early: the frame five lines
    from the end has an empty slot 4, the one seven lines from the end
    holds the answer. *)
Definition answered_early : World :=
  world landing
    (page 200 (two_frame_body (answer_frame (resolved "c_1" "r_1" "rc_1" "Hi"))
                              (answer_frame resolved_empty))).

(** A world whose primary line has a null payload slot. *)
Definition empty_slot : World :=
  world landing (page 200 (framed_body (frame VNone))).

(** A world whose speech answer carries an empty recording. *)
Definition spoken : World :=
  world landing (page 200 (answer_body (VList [VStr ""]))).

(** A world whose browser holds a cookie, but not [__Secure-1PSID]. *)
Definition stale_browser : World :=
  world_with_browser {[ "__Secure-1PSIDTS" := "sidts-CjEB" ]} landing landing.

(** A world whose landing page holds no nonce. *)
Definition signed_out : World :=
  world (page 200 "<html><body>Sign in</body></html>") landing.

(** A world whose answer is a refusal of status 429. *)
Definition refused : World :=
  world landing (page 429 "Too Many Requests").

(** A world whose answer has status 200 and no [wrb.fr] line. *)
Definition unframed : World :=
  world landing
    (page 200 (body [")]}'"; ""; "27";
                     "[[" +:+ Json.quoted "e" +:+ ", 4, null, null, 131]]"])).

(** A world whose answer frame carries an empty array. *)
Definition empty_answer : World :=
  world landing (page 200 (framed_body (frame (VStr "[]")))).

(** A world whose translators answer every text with [Salut]. *)
Definition translating : World :=
  {| http_get := λ _ _, Ok landing;
     http_post := λ _ _, Ok (page 200 (answer_body (resolved "c_1" "r_1" "rc_1" "Hi")));
     getenv := λ _, None;
     extract_bard_cookie := λ _, Ok ∅;
     random_digits := (D0, D0, D4, D2);
     uuid4_hex := "9f1c2d3e4b5a69788796a5b4c3d2e1f0";
     upload_image := λ _, Ok (VStr "/contrib_service/ttl_1d/1");
     GoogleTranslator := λ _ _, Ok (λ _, Ok (VStr "Salut"));
     client_translate := λ _ _, Ok (VStr "Salut");
     client_call := λ _ _, Ok (VStr "Salut");
     detect := λ _, Ok "xx";
     exec_code := λ _ self bard_answer, Returned self bard_answer |}.

(** A world whose translator to English works and whose translator to
    any other language cannot be built. *)
Definition translation_back_down : World :=
  {| http_get := λ _ _, Ok landing;
     http_post := λ _ _, Ok (page 200 (answer_body (resolved "c_1" "r_1" "rc_1" "Hi")));
     getenv := λ _, None;
     extract_bard_cookie := λ _, Ok ∅;
     random_digits := (D0, D0, D4, D2);
     uuid4_hex := "9f1c2d3e4b5a69788796a5b4c3d2e1f0";
     upload_image := λ _, Ok (VStr "/contrib_service/ttl_1d/1");
     GoogleTranslator := λ _ target,
       if String.eqb target "en" then Ok (λ text, Ok text)
       else Raise (External "LanguageNotSupportedException");
     client_translate := λ text _, Ok text;
     client_call := λ _ _, Raise TypeError;
     detect := λ _, Ok "en";
     exec_code := λ _ self bard_answer, Returned self bard_answer |}.

(** A client with [run_code] on. *)
Definition runner : Bard :=
  {| cookie_dict := None;
     multi_cookies_bool := false;
     token := "g.a000token.";
     proxies := None;
     timeout := 20;
     _reqid := 42;
     conversation_id := VStr "";
     response_id := VStr "";
     choice_id := VStr "";
     session := session0;
     SNlM0e := VList [VStr "Xq3"];
     language := None;
     run_code := true;
     google_translator_api_key := None;
     og_pid := "";
     rot := "";
     exp_id := "";
     init_value := "" |}.

(** A world whose answer holds a fenced block, and in which the snippet
    that [run_code] runs empties the mapping and sets the identifiers and
    the counter of the client to what it likes. *)
Definition snippet : World :=
  {| http_get := λ _ _, Ok landing;
     http_post := λ _ _,
       Ok (page 200 (answer_body (resolved "c_1" "r_1" "rc_1" fenced_example)));
     getenv := λ _, None;
     extract_bard_cookie := λ _, Ok ∅;
     random_digits := (D0, D0, D4, D2);
     uuid4_hex := "9f1c2d3e4b5a69788796a5b4c3d2e1f0";
     upload_image := λ _, Ok (VStr "/contrib_service/ttl_1d/1");
     GoogleTranslator := λ _ _, Ok (λ text, Ok text);
     client_translate := λ text _, Ok text;
     client_call := λ _ _, Raise TypeError;
     detect := λ _, Ok "en";
     exec_code := λ _ _ _, Returned (client None) (VDict []) |}.

(** Three calls in a row: an answered turn, a speech call, a refused
    [ask]. *)
Definition turns : list (Call unit) :=
  [CallGetAnswer unit answered "hello" None None None;
   CallSpeech unit spoken "hello" "en-US";
   CallAsk unit refused "hello" None None None].

End Calls.

(** * Properties *)

(** ** The exception monad *)

Lemma bind_Ok_inv {A B} (m : result A) (f : A → result B) (b : B) :
  m ≫= f = Ok b → ∃ a, m = Ok a ∧ f a = Ok b.
Proof. destruct m as [a|e]; [eauto|discriminate]. Qed.

(** ** Strings *)



Lemma append_cons (c : ascii) (s t : string) :
  String c s +:+ t = String c (s +:+ t).
Proof. done. Qed.



Lemma prefix_empty (s : string) : String.prefix "" s = true.
Proof. by destruct s. Qed.

Lemma prefix_drop (p s : string) :
  String.prefix p s = true → s = p +:+ Str.drop (String.length p) s.
Proof.
  revert s. induction p as [|a p IH]; intros s; [done|].
  destruct s as [|b s]; simpl; [done|].
  destruct (ascii_dec a b) as [->|]; [|done].
  intros Hp. rewrite append_cons. f_equal. by apply IH.
Qed.

Lemma prefix_app (p s : string) : String.prefix p (p +:+ s) = true.
Proof.
  induction p as [|a p IH]; [apply prefix_empty|].
  rewrite append_cons. simpl. by destruct (ascii_dec a a).
Qed.

Lemma drop_app (p s : string) : Str.drop (String.length p) (p +:+ s) = s.
Proof.
  induction p as [|a p IH]; [by destruct s|]. by rewrite append_cons.
Qed.





(** ** Link extraction *)

Lemma extract_links_loop (items acc : list pyval) :
  foldl (λ links item,
           match item with
           | VList _ => links ++ _extract_links item
           | VStr s => if is_link s then links ++ [item] else links
           | _ => links
           end) acc items
  = acc ++ (items ≫= Links.of_item).
Proof.
  revert acc. induction items as [|item items IH]; intros acc; simpl.
  - by rewrite app_nil_r.
  - rewrite IH, app_assoc. f_equal.
    destruct item; simpl; rewrite ?app_nil_r; try done.
    by destruct (is_link s); rewrite ?app_nil_r.
Qed.

Lemma extract_links_list (items : list pyval) :
  _extract_links (VList items) = items ≫= Links.of_item.
Proof. simpl. by rewrite extract_links_loop. Qed.

Lemma extract_links_cons (item : pyval) (items : list pyval) :
  _extract_links (VList (item :: items))
  = Links.of_item item ++ _extract_links (VList items).
Proof. by rewrite !extract_links_list. Qed.

Lemma is_link_spec (s : string) :
  is_link s = true
  ↔ Str.startswith "http" s = true ∧ Str.contains "favicon" s = false.
Proof.
  unfold is_link. rewrite andb_true_iff, negb_true_iff. tauto.
Qed.

Lemma extract_links_values (data : pyval) : Forall Links.link_value (_extract_links data).
Proof.
  induction data as [| | | | |items IH|entries _] using pyval_ind;
    try by constructor.
  rewrite extract_links_list. induction IH as [|item items Hitem _ IHitems]; simpl.
  - constructor.
  - apply Forall_app. split; [|done].
    destruct item as [| | | |s|l|d]; try (by constructor); [|exact Hitem].
    simpl. destruct (is_link s) eqn:Hs; [|constructor].
    repeat constructor. exists s. by apply is_link_spec in Hs as [??].
Qed.

(** A flat list of links is scanned to itself. *)
Lemma extract_links_fixed (l : list pyval) :
  Forall Links.link_value l → _extract_links (VList l) = l.
Proof.
  induction 1 as [|v l (s & -> & Hh & Hf) _ IH].
  - done.
  - rewrite extract_links_cons, IH. simpl.
    by rewrite (proj2 (is_link_spec s) (conj Hh Hf)).
Qed.

Lemma extract_links_refines (data : pyval) :
  _extract_links data
  = VStr <$> filter (λ s, Str.startswith "http" s = true
                          ∧ Str.contains "favicon" s = false)
               (Links.nested_strings data).
Proof.
  induction data as [| | | | |items IH|entries _] using pyval_ind; try done.
  rewrite extract_links_list.
  change (Links.nested_strings (VList items))
    with (items ≫= (λ item, match item with
                            | VList _ => Links.nested_strings item
                            | VStr s => [s]
                            | _ => []
                            end)).
  induction IH as [|item items Hitem _ IHitems]; [done|].
  rewrite !bind_cons, filter_app, fmap_app, IHitems. f_equal.
  destruct item as [| | | |s|l|d]; try done.
  unfold Links.of_item, is_link.
  simpl. rewrite filter_cons, filter_nil.
  destruct (Str.startswith "http" s), (Str.contains "favicon" s);
    case_decide; simpl; intuition congruence.
Qed.

(** C10: [_extract_links] is a total function that returns, for every value,
    a list whose members are all strings that start with [http] and hold no
    [favicon] anywhere; a value that is no list gives the empty list; the
    exclusion is by substring (a page whose address merely mentions favicon
    is dropped as well); and scanning a result again returns it unchanged. *)
Theorem extract_links_total_idempotent (data : pyval) :
  Forall Links.link_value (_extract_links data)
  ∧ match data with
    | VList _ => True
    | _ => _extract_links data = []
    end
  ∧ _extract_links (VList [VStr "https://example.com/favicon-history.html"]) = []
  ∧ _extract_links (VList (_extract_links data)) = _extract_links data.
Proof.
  split; [apply extract_links_values|]. split; [by destruct data|].
  split; [done|]. apply extract_links_fixed, extract_links_values.
Qed.

(** C9 (as the code has it): [_extract_links] is a recursive scan over the
    nested lists that collects, in the order of the scan, exactly the
    strings that start with [http] and hold no [favicon]; on the example
    it returns exactly the one link [https://example.com/a]. *)
Theorem extract_links_scan :
  (∀ data,
     _extract_links data
     = VStr <$> filter (λ s, Str.startswith "http" s = true
                             ∧ Str.contains "favicon" s = false)
                  (Links.nested_strings data))
  ∧ _extract_links links_example = [VStr "https://example.com/a"].
Proof. split; [apply extract_links_refines|reflexivity]. Qed.

(** C9 as stated fails: the two tests are not those of a URL and of an icon
    asset. The scan takes a string that merely starts with [http], and
    passes over an absolute URL of another scheme and over a page whose
    address mentions [favicon]. *)
Lemma extract_links_not_by_url_shape :
  _extract_links links_apart = [VStr "httpx-is-not-a-url"]
  ∧ Links.links_spec links_apart
    = [VStr "ftp://example.com/a.txt";
       VStr "https://example.com/favicon-history.html"]
  ∧ Links.links_spec links_example = [VStr "https://example.com/a"]
  ∧ _extract_links links_apart ≠ Links.links_spec links_apart.
Proof.
  split; [reflexivity|]. split; [by vm_compute|]. split; [by vm_compute|].
  vm_compute. discriminate.
Qed.

(** ** Fenced code *)


Lemma extract_code_no_string (parsed_answer : pyval) :
  (∀ s, primary_fragment parsed_answer ≠ Ok (VStr s)) →
  extract_code parsed_answer = (VNone, VNone).
Proof.
  intros Hs. unfold extract_code, fenced_block.
  destruct (primary_fragment parsed_answer) as [[| | | |s| |]|e]; try done.
  by destruct (Hs s).
Qed.




(** ** Python operations *)

Lemma mapM_Ok_inv {A B} (f : A → result B) (l : list A) (k : list B) :
  mapM f l = Ok k → Forall2 (λ x y, f x = Ok y) l k.
Proof.
  revert k. induction l as [|x l IH]; intros k; simpl.
  - intros [= <-]. constructor.
  - intros Hk. apply bind_Ok_inv in Hk as (y & Hy & Hk).
    apply bind_Ok_inv in Hk as (k' & Hk' & Hk). injection Hk as <-.
    constructor; auto.
Qed.

(** Indexing, iterating and [len] raise nothing but [IndexError],
    [KeyError] and [TypeError]. *)
Lemma getitem_raises (v : pyval) (i : nat) (e : exn) :
  Py.getitem v i = Raise e → lookup_or_type_error e = true.
Proof.
  destruct v as [| | | |s|l|d]; simpl; try by intros [= <-].
  - destruct (Py.str_get s i); by intros [= <-].
  - destruct (l !! i); by intros [= <-].
Qed.

Lemma iter_raises (v : pyval) (e : exn) :
  Py.iter v = Raise e → lookup_or_type_error e = true.
Proof. destruct v; simpl; by intros [= <-]. Qed.

Lemma len_raises (v : pyval) (e : exn) :
  Py.len v = Raise e → lookup_or_type_error e = true.
Proof. destruct v; simpl; by intros [= <-]. Qed.

Lemma getitem3_raises (v : pyval) (i j k : nat) (e : exn) :
  (a ← Py.getitem v i; b ← Py.getitem a j; Py.getitem b k) = Raise e →
  lookup_or_type_error e = true.
Proof.
  destruct (Py.getitem v i) as [a|e1] eqn:Ha; simpl;
    [|intros [= <-]; by eapply getitem_raises].
  destruct (Py.getitem a j) as [b|e2] eqn:Hb; simpl;
    [|intros [= <-]; by eapply getitem_raises].
  apply getitem_raises.
Qed.

Lemma append_images_raises (nested_list images images' : list pyval) (e : exn) :
  append_images nested_list images = (images', Some e) →
  lookup_or_type_error e = true.
Proof.
  revert images. induction nested_list as [|img rest IH]; intros images; simpl.
  - discriminate.
  - destruct (_ ≫= _) as [u|e'] eqn:Hu; [apply IH|].
    intros [= _ <-]. by eapply getitem3_raises.
Qed.

Lemma gather_images_never_raises (resp_json : pyval) :
  ∃ images, gather_images resp_json = Ok images.
Proof.
  unfold gather_images.
  destruct (Py.len resp_json) as [n|e] eqn:Hlen.
  - destruct (decide (3 ≤ n)%nat); [|by eexists].
    destruct (_ ≫= _) as [nested_list|e] eqn:Hnested.
    + destruct (append_images nested_list []) as [images [e|]] eqn:Happ;
        [|by eexists].
      rewrite (append_images_raises _ _ _ _ Happ). by eexists.
    + assert (lookup_or_type_error e = true) as ->; [|by eexists].
      destruct (Py.getitem resp_json 4) as [a|?] eqn:Ha; simpl in Hnested;
        [|injection Hnested as <-; by eapply getitem_raises].
      destruct (Py.getitem a 0) as [b|?] eqn:Hb; simpl in Hnested;
        [|injection Hnested as <-; by eapply getitem_raises].
      destruct (Py.getitem b 4) as [c|?] eqn:Hc; simpl in Hnested;
        [|injection Hnested as <-; by eapply getitem_raises].
      by eapply iter_raises.
  - rewrite (len_raises _ _ Hlen). by eexists.
Qed.

(** ** The nonce pattern *)

Lemma contains_quote_cons (c : ascii) (g : string) :
  Str.contains (String Str.dquote "") (String c g)
  = Ascii.eqb c Str.dquote || Str.contains (String Str.dquote "") g.
Proof.
  cbn [Str.contains String.prefix].
  destruct (ascii_dec Str.dquote c) as [<-|Hne].
  - by rewrite prefix_empty, Ascii.eqb_refl.
  - by destruct (Ascii.eqb_spec c Str.dquote) as [->|].
Qed.

Lemma run_spec (s g rest : string) :
  Nonce.run s = (g, rest) →
  s = g +:+ rest
  ∧ Str.contains (String Str.dquote "") g = false
  ∧ (rest = "" ∨ ∃ post, rest = String Str.dquote post).
Proof.
  revert g rest. induction s as [|c s IH]; intros g rest; cbn [Nonce.run].
  - intros [= <- <-]. auto.
  - destruct (Ascii.eqb_spec c Str.dquote) as [->|Hne].
    + intros [= <- <-]. split; [done|]. split; [done|]. right. eauto.
    + destruct (Nonce.run s) as [g' rest'].
      destruct (IH g' rest' eq_refl) as (-> & Hquote & Hrest).
      intros [= <- <-]. split; [done|]. split; [|done].
      rewrite contains_quote_cons, Hquote.
      by destruct (Ascii.eqb_spec c Str.dquote).
Qed.

Lemma run_app (g post : string) :
  Str.contains (String Str.dquote "") g = false →
  Nonce.run (g +:+ String Str.dquote post) = (g, String Str.dquote post).
Proof.
  induction g as [|c g IH].
  - change ("" +:+ ?x) with x. cbn [Nonce.run]. by rewrite Ascii.eqb_refl.
  - rewrite contains_quote_cons, append_cons. cbn [Nonce.run].
    intros [Hc Hg]%orb_false_elim. by rewrite Hc, IH.
Qed.

Lemma match_here_spec (s g : string) (n : nat) :
  Nonce.match_here s = Some (g, n) →
  g ≠ ""
  ∧ Str.contains (String Str.dquote "") g = false
  ∧ ∃ post, s = Nonce.opening +:+ g +:+ String Str.dquote post.
Proof.
  unfold Nonce.match_here.
  destruct (String.prefix Nonce.opening s) eqn:Hp; [|done].
  destruct (Nonce.run _) as [g' rest] eqn:Hrun.
  apply run_spec in Hrun as (Hs & Hquote & Hrest).
  destruct g' as [|c g']; [done|]. destruct rest as [|d rest]; [done|].
  intros [= <- <-]. destruct Hrest as [|[post Hpost]]; [done|].
  split; [done|]. split; [done|]. exists post.
  rewrite (prefix_drop _ _ Hp) at 1. by rewrite Hs, Hpost.
Qed.

Lemma match_here_app (g post : string) :
  g ≠ "" →
  Str.contains (String Str.dquote "") g = false →
  ∃ n, Nonce.match_here (Nonce.opening +:+ g +:+ String Str.dquote post)
       = Some (g, n).
Proof.
  intros Hg Hquote. unfold Nonce.match_here.
  rewrite prefix_app, drop_app, run_app by done.
  destruct g; [done|]. eauto.
Qed.

Lemma findall_go_sound (s : string) (skip : nat) (g : string) :
  g ∈ Nonce.findall_go skip s →
  g ≠ ""
  ∧ Str.contains (String Str.dquote "") g = false
  ∧ ∃ pre post, s = pre +:+ Nonce.opening +:+ g +:+ String Str.dquote post.
Proof.
  revert skip. induction s as [|c s IH]; intros skip; cbn [Nonce.findall_go].
  { by intros ?%elem_of_nil. }
  assert (∀ k, g ∈ Nonce.findall_go k s →
               g ≠ ""
               ∧ Str.contains (String Str.dquote "") g = false
               ∧ ∃ pre post, String c s
                             = pre +:+ Nonce.opening +:+ g
                               +:+ String Str.dquote post) as Hlater.
  { intros k Hin. destruct (IH _ Hin) as (? & ? & pre & post & ->).
    split; [done|]. split; [done|]. by exists (String c pre), post. }
  destruct skip as [|k]; [|apply Hlater].
  destruct (Nonce.match_here (String c s)) as [[g' n]|] eqn:Hm; [|apply Hlater].
  intros [->|Hin]%elem_of_cons; [|by eapply Hlater].
  apply match_here_spec in Hm as (? & ? & post & ->).
  split; [done|]. split; [done|]. by exists "", post.
Qed.

Lemma findall_go_complete (pre g post : string) :
  g ≠ "" →
  Str.contains (String Str.dquote "") g = false →
  Nonce.findall_go 0 (pre +:+ Nonce.opening +:+ g +:+ String Str.dquote post)
  ≠ [].
Proof.
  intros Hg Hquote. induction pre as [|c pre IH].
  - destruct (match_here_app g post Hg Hquote) as [n Hm].
    change ("" +:+ ?x) with x.
    destruct (Nonce.opening +:+ g +:+ String Str.dquote post) eqn:Hs; [done|].
    cbn [Nonce.findall_go]. by rewrite Hm.
  - rewrite append_cons. cbn [Nonce.findall_go].
    by destruct (Nonce.match_here _) as [[g' n]|].
Qed.

(** * The client, whatever the collaborators are *)

Section Facts.

Variable json_loads : string → result pyval.
Variable build_bard_answer :
  pyval → list pyval → pyval → pyval → Z → result pyval.
Context `{ResultModel}.
Variable b64decode : pyval → result string.
Variable repr_other : pyval → string.
Variable ALLOWED_LANGUAGES : gset string.
Variable REPLIT_SUPPORT_PROGRAM_LANGUAGES : gmap string string.
Variable SESSION_HEADERS : gmap string string.
Variable TEXT_GENERATION_WEB_SERVER_PARAM : string.
Variable Tool : Type.
Variable tool_value : Tool → pyval.

Local Abbreviation init := (init SESSION_HEADERS).
Local Abbreviation get_answer :=
  (get_answer json_loads build_bard_answer ALLOWED_LANGUAGES
     TEXT_GENERATION_WEB_SERVER_PARAM Tool tool_value).
Local Abbreviation get_answer_request :=
  (get_answer_request ALLOWED_LANGUAGES TEXT_GENERATION_WEB_SERVER_PARAM
     Tool tool_value).
Local Abbreviation get_answer_decode :=
  (get_answer_decode json_loads build_bard_answer ALLOWED_LANGUAGES).
Local Abbreviation decode_answer := (decode_answer json_loads).
Local Abbreviation payload_of_line := (payload_of_line json_loads).
Local Abbreviation loads_value := (loads_value json_loads).
Local Abbreviation translate_input := (translate_input ALLOWED_LANGUAGES).
Local Abbreviation foreign_language := (foreign_language ALLOWED_LANGUAGES).
Local Abbreviation ask :=
  (ask json_loads TEXT_GENERATION_WEB_SERVER_PARAM Tool tool_value).
Local Abbreviation ask_request :=
  (ask_request TEXT_GENERATION_WEB_SERVER_PARAM Tool tool_value).
Local Abbreviation ask_decode := (ask_decode json_loads).
Local Abbreviation ask_about_image := (ask_about_image json_loads ALLOWED_LANGUAGES).
Local Abbreviation ask_about_image_request :=
  (ask_about_image_request ALLOWED_LANGUAGES).
Local Abbreviation ask_about_image_decode :=
  (ask_about_image_decode json_loads).
Local Abbreviation speech :=
  (speech json_loads b64decode TEXT_GENERATION_WEB_SERVER_PARAM).
Local Abbreviation export_conversation :=
  (export_conversation json_loads repr_other TEXT_GENERATION_WEB_SERVER_PARAM).
Local Abbreviation export_replit :=
  (export_replit json_loads repr_other REPLIT_SUPPORT_PROGRAM_LANGUAGES
     TEXT_GENERATION_WEB_SERVER_PARAM).
Local Abbreviation Call := (Call Tool).
Local Abbreviation after :=
  (after json_loads build_bard_answer b64decode repr_other ALLOWED_LANGUAGES
     REPLIT_SUPPORT_PROGRAM_LANGUAGES TEXT_GENERATION_WEB_SERVER_PARAM Tool
     tool_value).

(** ** What a call leaves of the client *)

Lemma reqid_set_ids (self : Bard) (ids : pyval * pyval * pyval) :
  _reqid (set_ids self ids) = _reqid self.
Proof. by destruct ids as [[??]?]. Qed.

Lemma client_ids_set_ids (self : Bard) (ids : pyval * pyval * pyval) :
  client_ids (bump_reqid (set_ids self ids)) = ids.
Proof. by destruct ids as [[??]?]. Qed.

(** What a call of [get_answer] comes to when [run_code] is off: an
    exception with nothing stored, the error mapping of the empty payload
    slot, or an answer built by [build_bard_answer] whose identifiers are
    stored and whose exchange steps the counter. *)
Lemma get_answer_cases (w : World) (self : Bard) (input_text : string)
    (image image_name : option string) (tool : option Tool) :
  run_code self = false →
  (∃ e, get_answer w self input_text image image_name tool = (Raise e, self))
  ∨ (∃ resp, get_answer w self input_text image image_name tool
             = (Ok (response_error resp), self))
  ∨ (∃ bard_answer ids parsed images program_lang code status,
       build_bard_answer parsed images program_lang code status = Ok bard_answer
       ∧ answer_ids bard_answer = Ok ids
       ∧ get_answer w self input_text image image_name tool
         = (Ok bard_answer, bump_reqid (set_ids self ids))).
Proof.
  intros Hoff. unfold get_answer. rewrite Hoff.
  destruct (_ ≫= _) as [[d|bard_answer ids]|e] eqn:Hrun; [| |by left; eauto].
  - right; left.
    apply bind_Ok_inv in Hrun as (rq & _ & Hrun).
    apply bind_Ok_inv in Hrun as (resp & _ & Hrun).
    unfold get_answer_decode in Hrun.
    apply bind_Ok_inv in Hrun as ([[resp_dict resp_json]|] & _ & Hrun).
    + apply bind_Ok_inv in Hrun as (images & _ & Hrun).
      apply bind_Ok_inv in Hrun as (parsed & _ & Hrun).
      apply bind_Ok_inv in Hrun as (parsed' & _ & Hrun).
      destruct (extract_code parsed') as [program_lang code].
      apply bind_Ok_inv in Hrun as (answer & _ & Hrun).
      by apply bind_Ok_inv in Hrun as (ids' & _ & Hrun).
    + injection Hrun as <-. eauto.
  - right; right.
    apply bind_Ok_inv in Hrun as (rq & _ & Hrun).
    apply bind_Ok_inv in Hrun as (resp & _ & Hrun).
    unfold get_answer_decode in Hrun.
    apply bind_Ok_inv in Hrun as ([[resp_dict resp_json]|] & _ & Hrun);
      [|discriminate].
    apply bind_Ok_inv in Hrun as (images & _ & Hrun).
    apply bind_Ok_inv in Hrun as (parsed & _ & Hrun).
    apply bind_Ok_inv in Hrun as (parsed' & _ & Hrun).
    destruct (extract_code parsed') as [program_lang code].
    apply bind_Ok_inv in Hrun as (answer & Hbuild & Hrun).
    apply bind_Ok_inv in Hrun as (ids' & Hids & Hrun).
    injection Hrun as <- <-.
    by exists answer, ids', parsed', images, program_lang, code, (status_code resp).
Qed.

(** [ask_about_image] ends in the same three ways, its answer being the
    mapping of lines 636-648. *)
Lemma ask_about_image_cases (w : World) (self : Bard)
    (input_text image : string) (lang : option string) :
  (∃ e, ask_about_image w self input_text image lang = (Raise e, self))
  ∨ (∃ resp, ask_about_image w self input_text image lang
             = (Ok (response_error resp), self))
  ∨ (∃ bard_answer ids translated parsed status,
       image_answer translated parsed status = Ok bard_answer
       ∧ answer_ids bard_answer = Ok ids
       ∧ ask_about_image w self input_text image lang
         = (Ok bard_answer, bump_reqid (set_ids self ids))).
Proof.
  unfold ask_about_image.
  destruct (_ ≫= _) as [[d|bard_answer ids]|e] eqn:Hrun; [| |by left; eauto].
  - right; left.
    apply bind_Ok_inv in Hrun as (rq & _ & Hrun).
    apply bind_Ok_inv in Hrun as (resp & _ & Hrun).
    unfold ask_about_image_decode in Hrun.
    apply bind_Ok_inv in Hrun as (line & _ & Hrun).
    apply bind_Ok_inv in Hrun as (resp_dict & _ & Hrun).
    destruct (negb (Py.truthy resp_dict)).
    + injection Hrun as <-. eauto.
    + apply bind_Ok_inv in Hrun as (parsed & _ & Hrun).
      apply bind_Ok_inv in Hrun as (fragment & _ & Hrun).
      apply bind_Ok_inv in Hrun as (translated & _ & Hrun).
      apply bind_Ok_inv in Hrun as (answer & _ & Hrun).
      by apply bind_Ok_inv in Hrun as (ids' & _ & Hrun).
  - right; right.
    apply bind_Ok_inv in Hrun as (rq & _ & Hrun).
    apply bind_Ok_inv in Hrun as (resp & _ & Hrun).
    unfold ask_about_image_decode in Hrun.
    apply bind_Ok_inv in Hrun as (line & _ & Hrun).
    apply bind_Ok_inv in Hrun as (resp_dict & _ & Hrun).
    destruct (negb (Py.truthy resp_dict)); [discriminate|].
    apply bind_Ok_inv in Hrun as (parsed & _ & Hrun).
    apply bind_Ok_inv in Hrun as (fragment & _ & Hrun).
    apply bind_Ok_inv in Hrun as (translated & _ & Hrun).
    apply bind_Ok_inv in Hrun as (answer & Hanswer & Hrun).
    apply bind_Ok_inv in Hrun as (ids' & Hids & Hrun).
    injection Hrun as <- <-. eauto 10.
Qed.

(** [ask] raises and leaves the client alone, or returns a result with a
    first draft and stores its identifiers. *)
Lemma ask_cases (w : World) (self : Bard) (text : string)
    (image image_name : option string) (tool : option Tool) :
  (∃ e, ask w self text image image_name tool = (Raise e, self))
  ∨ (∃ res first rest,
       drafts res = first :: rest
       ∧ ask w self text image image_name tool
         = (Ok res, bump_reqid (set_ids self (result_conversation_id res,
                                              result_response_id res,
                                              draft_id first)))).
Proof.
  unfold ask.
  destruct (_ ≫= _) as [[res ids]|e] eqn:Hrun; [|by left; eauto].
  right.
  apply bind_Ok_inv in Hrun as (rq & _ & Hrun).
  apply bind_Ok_inv in Hrun as (resp & _ & Hrun).
  unfold ask_decode in Hrun.
  destruct (negb (status_code resp =? 200)); [discriminate|].
  apply bind_Ok_inv in Hrun as (jsons & _ & Hrun).
  apply bind_Ok_inv in Hrun as (resp_json & _ & Hrun).
  destruct (negb (Py.truthy resp_json)); [discriminate|].
  apply bind_Ok_inv in Hrun as (res0 & _ & Hrun).
  apply bind_Ok_inv in Hrun as (res1 & _ & Hrun).
  apply bind_Ok_inv in Hrun as (first & Hfirst & Hrun).
  injection Hrun as <- <-.
  unfold Py.at_index in Hfirst.
  destruct (drafts res1) as [|d ds] eqn:Hd; [discriminate|].
  injection Hfirst as <-. exists res1, d, ds. by rewrite Hd.
Qed.

Lemma speech_client (w : World) (self : Bard) (input_text lang : string) :
  (speech w self input_text lang).2 = self.
Proof. done. Qed.

Lemma export_conversation_cases (w : World) (self : Bard)
    (bard_answer : pyval) (title : string) :
  (∃ e, export_conversation w self bard_answer title = (Raise e, self))
  ∨ (∃ d, export_conversation w self bard_answer title
          = (Ok d, bump_reqid self)).
Proof.
  unfold export_conversation. destruct (_ ≫= _) as [d|e]; eauto.
Qed.

Lemma export_replit_cases (w : World) (self : Bard) (code : pyval)
    (program_lang filename instructions source_path : option string) :
  (∃ e, export_replit w self code program_lang filename instructions source_path
        = (Raise e, self))
  ∨ (∃ d, export_replit w self code program_lang filename instructions source_path
          = (Ok d, bump_reqid self)).
Proof.
  unfold export_replit.
  match goal with |- context [match ?m with Ok _ => _ | Raise _ => _ end] =>
    destruct m as [d|e]; eauto
  end.
Qed.

(** ** The request counter *)

Lemma seed_range (ds : digit * digit * digit * digit) :
  0 ≤ seed_of ds ≤ 9999.
Proof.
  destruct ds as [[[a b] c] d]. unfold seed_of.
  destruct a, b, c, d; simpl; lia.
Qed.

(** The constructor seeds the counter with the four random digits. *)
Lemma init_reqid (w : World) (a : InitArgs) (self : Bard) :
  init w a = Ok self → _reqid self = seed_of (random_digits w).
Proof.
  unfold init. intros Hinit.
  apply bind_Ok_inv in Hinit as ([token cookie_dict] & _ & Hinit).
  apply bind_Ok_inv in Hinit as (snim0e & _ & Hinit).
  by injection Hinit as <-.
Qed.

(** With [run_code] off, a call leaves the counter where it is or moves
    it up by 100000, and [run_code] stays off. *)
Lemma reqid_step (self : Bard) (c : Call) :
  run_code self = false →
  run_code (after self c) = false
  ∧ (_reqid (after self c) = _reqid self
     ∨ _reqid (after self c) = _reqid self + 100000).
Proof.
  intros Hoff.
  destruct c as [w input_text image image_name tool
                |w input_text lang
                |w bard_answer title
                |w input_text image lang
                |w prompt image image_name tool
                |w code program_lang filename instructions source_path]; simpl.
  - destruct (get_answer_cases w self input_text image image_name tool Hoff)
      as [[e ->]|[[resp ->]|(?&ids&?&?&?&?&?&_&_&->)]]; [by auto..|].
    simpl. destruct ids as [[??]?]. by auto.
  - by auto.
  - destruct (export_conversation_cases w self bard_answer title)
      as [[e ->]|[d ->]]; by auto.
  - destruct (ask_about_image_cases w self input_text image lang)
      as [[e ->]|[[resp ->]|(?&ids&?&?&?&_&_&->)]]; [by auto..|].
    simpl. destruct ids as [[??]?]. by auto.
  - destruct (ask_cases w self prompt image image_name tool)
      as [[e ->]|(res&first&rest&_&->)]; by auto.
  - destruct (export_replit_cases w self code program_lang filename
                instructions source_path) as [[e ->]|[d ->]]; by auto.
Qed.

(** With [run_code] off, the counter never goes down over any sequence of
    calls. *)
Lemma reqid_monotone (calls : list Call) (self : Bard) :
  run_code self = false →
  _reqid self ≤ _reqid (foldl after self calls).
Proof.
  revert self. induction calls as [|c calls IH]; intros self Hoff; simpl; [lia|].
  destruct (reqid_step self c Hoff) as [Hoff' Hstep].
  specialize (IH (after self c) Hoff'). destruct Hstep; lia.
Qed.

(** C6: [speech] sends the counter and, unlike the five other public
    operations, returns without stepping it: after a [speech] call, completed
    or not, the counter is what it was. *)
Theorem speech_keeps_reqid (w : World) (self : Bard) (input_text lang : string) :
  _reqid (speech w self input_text lang).2 = _reqid self
  ∧ (speech_request TEXT_GENERATION_WEB_SERVER_PARAM self input_text lang).(params)
      !! 1%nat = Some ("_reqid", Str.of_int (_reqid self)).
Proof. done. Qed.

(** ** Session setup *)

(** C4: with a landing page of status 200, [_get_snim0e] returns whatever
    list [re.findall] gives, the empty list included: the comparison of line
    182 is between a list and [None] and never holds, so a page without a
    nonce raises nothing; only a status other than 200, or a failing
    transport, makes it raise. *)
Theorem get_snim0e_never_misses (w : World) (session : Session) :
  _get_snim0e w session
  = match http_get w session "https://gemini.google.com/" with
    | Raise e => Raise e
    | Ok response =>
        if status_code response =? 200
        then Ok (Nonce.findall (text response))
        else Raise (status_error (status_code response))
    end
  ∧ Nonce.findall "<html><body>Sign in</body></html>" = VList [].
Proof.
  split; [|done]. unfold _get_snim0e.
  destruct (http_get w session _) as [response|e]; [simpl|done].
  by destruct (status_code response =? 200).
Qed.

(** ** Translation *)

(** In [get_answer] the translation of the prompt stands outside any
    [try]: when a language outside [ALLOWED_LANGUAGES] is configured, no
    API key is set and the translator raises, the call raises the same
    exception and nothing of the client changes. The prompt is as little
    protected in [ask_about_image]. *)
Lemma get_answer_prompt_translation_failure_aborts (w : World) (self : Bard)
    (input_text : string) (image image_name : option string)
    (tool : option Tool) (l : string) (translate : pyval → result pyval)
    (e : exn) :
  language self = Some l →
  l ∉ ALLOWED_LANGUAGES →
  google_translator_api_key self = None →
  GoogleTranslator w "auto" "en" = Ok translate →
  translate (VStr input_text) = Raise e →
  get_answer w self input_text image image_name tool = (Raise e, self).
Proof.
  intros Hl Hnot Hkey Htr Hfail.
  unfold get_answer, get_answer_request, translate_input, foreign_language.
  rewrite Hl, Hkey. rewrite decide_False by done.
  simpl. rewrite Htr. simpl. by rewrite Hfail.
Qed.


(** The sibling path: in [ask_about_image] the translation of the answer
    is inside [try]. Whether the translator cannot be built or its
    [translate] raises, the untranslated content is what the call goes on
    with. *)
Lemma image_translation_failure_swallowed (w : World) (self : Bard)
    (input_text : string) (lang : option string) (content : pyval)
    (l : string) :
  language self = Some l →
  google_translator_api_key self = None →
  (∀ translate, GoogleTranslator w "en" l = Ok translate →
                ∃ e, translate content = Raise e) →
  image_translate_content w self input_text lang content = Some content.
Proof.
  intros Hl Hkey Hfail. unfold image_translate_content.
  rewrite Hl, Hkey.
  destruct (GoogleTranslator w "en" l) as [translate|e]; [|done].
  simpl. by destruct (Hfail translate eq_refl) as [e ->].
Qed.

(** C5: in [get_answer] the translation of the answer (lines 313-328)
    stands outside any [try]. With a language outside [ALLOWED_LANGUAGES]
    and no API key, when the prompt was translated, the response decoded,
    and the translator for the answer cannot be built or raises on the
    primary content fragment, the call raises the same exception and
    nothing of the client changes. The sibling [ask_about_image] has the
    same step inside [try] (lines 596-633): there the failing translation
    leaves the untranslated content in its place. *)
Theorem get_answer_translation_failure_aborts (w : World) (self : Bard)
    (input_text : string) (image image_name : option string)
    (tool : option Tool) (l : string) (rq : Request) (resp : Response)
    (resp_dict resp_json parsed x0 content : pyval)
    (others fields candidates : list pyval) (e : exn) :
  language self = Some l →
  l ∉ ALLOWED_LANGUAGES →
  google_translator_api_key self = None →
  get_answer_request w self input_text image image_name tool = Ok rq →
  http_post w (session self) rq = Ok resp →
  decode_answer resp = Ok (Some (resp_dict, resp_json)) →
  loads_value resp_dict = Ok parsed →
  Py.getitem parsed 4
  = Ok (VList (VList (x0 :: VList (content :: others) :: fields)
               :: candidates)) →
  (GoogleTranslator w "auto" l = Raise e
   ∨ ∃ translate, GoogleTranslator w "auto" l = Ok translate
                  ∧ translate content = Raise e) →
  get_answer w self input_text image image_name tool = (Raise e, self)
  ∧ ((∀ translate, GoogleTranslator w "en" l = Ok translate →
                   ∃ e', translate content = Raise e') →
     ∀ lang, image_translate_content w self input_text lang content
             = Some content).
Proof.
  intros Hl Hnot Hkey Hrq Hpost Hdecode Hparsed Hslot Hfail. split.
  - unfold get_answer, get_answer_decode.
    rewrite Hrq. simpl. rewrite Hpost. simpl. rewrite Hdecode. simpl.
    destruct (gather_images_never_raises resp_json) as [images ->]. simpl.
    rewrite Hparsed. simpl.
    unfold translate_answer, foreign_language, translator_func.
    rewrite Hl, Hkey. rewrite decide_False by done.
    destruct Hfail as [->|(translate & -> & Hfail)]; [done|].
    simpl. rewrite Hslot. simpl. unfold translate_choice. simpl.
    by rewrite Hfail.
  - intros Hsibling lang. by eapply image_translation_failure_swallowed.
Qed.

(** ** Credential resolution *)

(** Credential resolution as the code has it: a non-empty explicit token
    wins; otherwise a non-empty [_BARD_API_KEY] of the environment;
    otherwise, with browser extraction enabled, the [__Secure-1PSID] cookie
    of the browser, or the empty string when the extracted cookies lack it.
    The call raises when extraction is disabled, when extraction itself
    raises, and when it yields no cookie at all with the multi-cookie mode
    off; whatever [_get_token] raises, the constructor raises. *)
Lemma get_token_precedence (w : World) (a : InitArgs) :
  let run := _get_token w (arg_cookie_dict a) (arg_multi_cookies_bool a)
               (arg_token a) (arg_token_from_browser a)
               (arg_multi_cookies_bool a) in
  (∀ t, nonempty (arg_token a) = Some t → run = Ok (t, arg_cookie_dict a))
  ∧ (nonempty (arg_token a) = None →
     ∀ t, nonempty (getenv w "_BARD_API_KEY") = Some t →
          run = Ok (t, arg_cookie_dict a))
  ∧ (nonempty (arg_token a) = None →
     nonempty (getenv w "_BARD_API_KEY") = None →
     if arg_token_from_browser a then
       match extract_bard_cookie w (arg_multi_cookies_bool a) with
       | Raise e => run = Raise e
       | Ok d =>
           if bool_decide (d = ∅) && negb (arg_multi_cookies_bool a)
           then run = Raise token_error
           else ∃ cookie_dict,
               run = Ok (default "" (d !! "__Secure-1PSID"), cookie_dict)
       end
     else run = Raise token_error)
  ∧ (∀ e, run = Raise e → init w a = Raise e).
Proof.
  intros run. subst run. unfold _get_token.
  split; [by intros t ->|]. split; [by intros -> t ->|].
  split; [|by unfold init, _get_token; intros e ->].
  intros -> ->. destruct (arg_token_from_browser a); [|done].
  destruct (extract_bard_cookie w _) as [d|e]; [simpl|done].
  destruct (arg_multi_cookies_bool a); simpl.
  - rewrite andb_false_r. destruct (decide (d = ∅)) as [->|Hne].
    + rewrite map_size_empty.
      rewrite (bool_decide_eq_true_2 (0 < _)%nat) by (simpl; lia). eauto.
    + destruct (_ || _); [eauto|].
      rewrite bool_decide_eq_true_2 by done. eauto.
  - rewrite andb_true_r. repeat case_bool_decide; try done; eauto.
Qed.

(** C7: when neither the argument nor the environment gives a token and
    the browser is asked, cookies that lack [__Secure-1PSID] are not
    refused: line 131 reports the essential cookies missing (in the
    multi-cookie mode) and lines 133 and 135 return the default of the
    look-up, the empty string. [_get_token] returns it as the credential,
    and a constructor that goes on to succeed has an empty token. *)
Theorem get_token_missing_cookie_not_refused (w : World) (a : InitArgs)
    (d : gmap string string) :
  nonempty (arg_token a) = None →
  nonempty (getenv w "_BARD_API_KEY") = None →
  arg_token_from_browser a = true →
  extract_bard_cookie w (arg_multi_cookies_bool a) = Ok d →
  d !! "__Secure-1PSID" = None →
  arg_multi_cookies_bool a = true ∨ d ≠ ∅ →
  (∃ cookie_dict,
     _get_token w (arg_cookie_dict a) (arg_multi_cookies_bool a)
       (arg_token a) (arg_token_from_browser a) (arg_multi_cookies_bool a)
     = Ok ("", cookie_dict))
  ∧ ∀ self, init w a = Ok self → token self = "".
Proof.
  intros Htoken Henv Hbrowser Hd Hmissing Hsome.
  assert (∃ cookie_dict,
            _get_token w (arg_cookie_dict a) (arg_multi_cookies_bool a)
              (arg_token a) (arg_token_from_browser a)
              (arg_multi_cookies_bool a)
            = Ok ("", cookie_dict)) as [cookie_dict Hrun].
  { unfold _get_token. rewrite Htoken, Henv, Hbrowser, Hd. simpl.
    rewrite Hmissing. simpl.
    destruct (arg_multi_cookies_bool a).
    - rewrite orb_true_r. eauto.
    - destruct Hsome as [[=]|Hne]. rewrite bool_decide_eq_true_2 by done.
      eauto. }
  split; [eauto|].
  intros self. unfold init. rewrite Hrun. simpl. intros Hinit.
  apply bind_Ok_inv in Hinit as (snim0e & _ & Hinit). by injection Hinit as <-.
Qed.

(** ** The payload line and its fallback *)

(** When the payload of the fifth line from the end decodes to an array
    whose slot 4 is [None], the decoder goes on with the seventh line from
    the end, and with nothing else. *)
Lemma decode_answer_fallback (resp : Response) (line : string)
    (resp_dict resp_json : pyval) :
  Py.from_end (Str.splitlines (content resp)) 5 = Ok line →
  payload_of_line line = Ok resp_dict →
  Py.truthy resp_dict = true →
  loads_value resp_dict = Ok resp_json →
  Py.getitem resp_json 4 = Ok VNone →
  decode_answer resp
  = (line' ← Py.from_end (Str.splitlines (content resp)) 7;
     resp_dict' ← payload_of_line line';
     resp_json' ← loads_value resp_dict';
     Ok (Some (resp_dict', resp_json'))).
Proof.
  intros Hline Hdict Htrue Hjson Hslot. unfold decode_answer.
  rewrite Hline. simpl. rewrite Hdict. simpl. rewrite Htrue. simpl.
  rewrite Hjson. simpl. by rewrite Hslot.
Qed.

(** An empty payload slot on the primary line is reported as the error
    mapping, which quotes the raw body, and the client is left alone. *)
Lemma get_answer_empty_slot (w : World) (self : Bard) (input_text : string)
    (image image_name : option string) (tool : option Tool)
    (rq : Request) (resp : Response) (line : string) (resp_dict : pyval) :
  get_answer_request w self input_text image image_name tool = Ok rq →
  http_post w (session self) rq = Ok resp →
  Py.from_end (Str.splitlines (content resp)) 5 = Ok line →
  payload_of_line line = Ok resp_dict →
  Py.truthy resp_dict = false →
  get_answer w self input_text image image_name tool
  = (Ok (response_error resp), self).
Proof.
  intros Hrq Hpost Hline Hdict Hfalse.
  unfold get_answer, get_answer_decode, decode_answer.
  rewrite Hrq. simpl. rewrite Hpost. simpl. rewrite Hline. simpl.
  rewrite Hdict. simpl. by rewrite Hfalse.
Qed.

(** C1: the fallback line is tried, but what it yields is not checked:
    when slot 4 of the primary payload is [None] and the payload slot of the
    fallback line is [None] as well, [get_answer] passes that [None] to
    [json.loads] and the [TypeError] leaves the call; no error mapping is
    returned. *)
Theorem get_answer_null_fallback_raises (w : World) (self : Bard)
    (input_text : string) (image image_name : option string)
    (tool : option Tool) (rq : Request) (resp : Response)
    (line line' : string) (resp_dict resp_json : pyval) :
  get_answer_request w self input_text image image_name tool = Ok rq →
  http_post w (session self) rq = Ok resp →
  Py.from_end (Str.splitlines (content resp)) 5 = Ok line →
  payload_of_line line = Ok resp_dict →
  Py.truthy resp_dict = true →
  loads_value resp_dict = Ok resp_json →
  Py.getitem resp_json 4 = Ok VNone →
  Py.from_end (Str.splitlines (content resp)) 7 = Ok line' →
  payload_of_line line' = Ok VNone →
  get_answer w self input_text image image_name tool = (Raise TypeError, self).
Proof.
  intros Hrq Hpost Hline Hdict Htrue Hjson Hslot Hline' Hdict'.
  unfold get_answer, get_answer_decode.
  rewrite Hrq. simpl. rewrite Hpost. simpl.
  rewrite (decode_answer_fallback _ _ _ _ Hline Hdict Htrue Hjson Hslot).
  rewrite Hline'. simpl. by rewrite Hdict'.
Qed.

(** ** Conversation continuity *)

Lemma answer_ids_error (resp : Response) :
  answer_ids (response_error resp) = Raise KeyError.
Proof. done. Qed.

Lemma text_struct_ids (w : World) (self : Bard) (input_text : pyval)
    (image image_name : option string) (tool : option Tool)
    (s : InputTextStruct) :
  text_struct Tool tool_value w self input_text image image_name tool = Ok s →
  sent_ids (stream_request TEXT_GENERATION_WEB_SERVER_PARAM self s)
  = Some (client_ids self).
Proof.
  unfold text_struct. intros Hs.
  apply bind_Ok_inv in Hs as (image_url & _ & Hs). by injection Hs as <-.
Qed.

(** C2 (as the code has it): after a call of [get_answer] with [run_code]
    off, of [ask_about_image] or of [ask] that returns an answer, the client
    holds the conversation id, the response id and the id of the choice
    (draft) at index 0 of that answer; a request built by [get_answer] or
    [ask] sends the three identifiers the client holds; a request built by
    [ask_about_image] sends three empty strings instead, and is the same
    request whatever identifiers the client holds. With [run_code] on, the
    snippet of line 356 runs after the identifiers are stored and may
    change them. *)
Theorem conversation_ids_carried :
  (∀ w self input_text image image_name tool bard_answer self' ids,
     run_code self = false →
     get_answer w self input_text image image_name tool = (Ok bard_answer, self') →
     answer_ids bard_answer = Ok ids →
     client_ids self' = ids)
  ∧ (∀ w self input_text image lang bard_answer self' ids,
       ask_about_image w self input_text image lang = (Ok bard_answer, self') →
       answer_ids bard_answer = Ok ids →
       client_ids self' = ids)
  ∧ (∀ w self prompt image image_name tool res self',
       ask w self prompt image image_name tool = (Ok res, self') →
       ∃ first, head (drafts res) = Some first
                ∧ client_ids self' = (result_conversation_id res,
                                      result_response_id res, draft_id first))
  ∧ (∀ w self input_text image image_name tool rq,
       get_answer_request w self input_text image image_name tool = Ok rq →
       sent_ids rq = Some (client_ids self))
  ∧ (∀ w self prompt image image_name tool rq,
       ask_request w self prompt image image_name tool = Ok rq →
       sent_ids rq = Some (client_ids self))
  ∧ (∀ w self input_text image lang rq,
       ask_about_image_request w self input_text image lang = Ok rq →
       sent_ids rq = Some (VStr "", VStr "", VStr ""))
  ∧ (∀ w self input_text image lang ids,
       ask_about_image_request w (set_ids self ids) input_text image lang
       = ask_about_image_request w self input_text image lang).
Proof.
  repeat split.
  - intros w self input_text image image_name tool bard_answer self' ids
      Hoff Hrun Hids.
    destruct (get_answer_cases w self input_text image image_name tool Hoff)
      as [[e He]|[[resp He]|(b&ids'&?&?&?&?&?&_&Hids'&He)]].
    + by rewrite He in Hrun.
    + rewrite He in Hrun. injection Hrun as <- <-.
      by rewrite answer_ids_error in Hids.
    + rewrite He in Hrun. injection Hrun as <- <-.
      rewrite client_ids_set_ids. congruence.
  - intros w self input_text image lang bard_answer self' ids Hrun Hids.
    destruct (ask_about_image_cases w self input_text image lang)
      as [[e He]|[[resp He]|(b&ids'&?&?&?&_&Hids'&He)]].
    + by rewrite He in Hrun.
    + rewrite He in Hrun. injection Hrun as <- <-.
      by rewrite answer_ids_error in Hids.
    + rewrite He in Hrun. injection Hrun as <- <-.
      rewrite client_ids_set_ids. congruence.
  - intros w self prompt image image_name tool res self' Hrun.
    destruct (ask_cases w self prompt image image_name tool)
      as [[e He]|(res'&first&rest&Hd&He)].
    + by rewrite He in Hrun.
    + rewrite He in Hrun. injection Hrun as <- <-.
      exists first. by rewrite Hd.
  - intros w self input_text image image_name tool rq Hrq.
    unfold get_answer_request in Hrq.
    apply bind_Ok_inv in Hrq as (translated & _ & Hrq).
    apply bind_Ok_inv in Hrq as (s & Hs & Hrq). injection Hrq as <-.
    by eapply text_struct_ids.
  - intros w self prompt image image_name tool rq Hrq.
    unfold ask_request in Hrq.
    apply bind_Ok_inv in Hrq as (s & Hs & Hrq). injection Hrq as <-.
    by eapply text_struct_ids.
  - intros w self input_text image lang rq Hrq.
    unfold ask_about_image_request in Hrq.
    apply bind_Ok_inv in Hrq as (translated & _ & Hrq).
    apply bind_Ok_inv in Hrq as (image_url & _ & Hrq).
    apply bind_Ok_inv in Hrq as (t & _ & Hrq). by injection Hrq as <-.
  - intros w self input_text image lang [[c r] ch]. done.
Qed.

(** ** Further properties of the operations *)

(** With [run_code] off, over any sequence of calls of the public
    operations, in whatever worlds, the counter ends at its start plus
    100000 for some of the calls: it never goes down and never moves by
    another amount. (With [run_code] on, the snippet that [get_answer] runs
    has the client in its reach and may set the counter to anything.) *)
Theorem reqid_over_calls (calls : list Call) (self : Bard) :
  run_code self = false →
  ∃ k : nat, (k ≤ length calls)%nat
             ∧ _reqid (foldl after self calls)
               = _reqid self + 100000 * Z.of_nat k.
Proof.
  revert self. induction calls as [|c calls IH]; intros self Hoff; simpl.
  - exists 0%nat. split; [lia|lia].
  - destruct (reqid_step self c Hoff) as [Hoff' Hstep].
    destruct (IH (after self c) Hoff') as (k & Hk & ->).
    destruct Hstep as [-> | ->].
    + exists k. split; lia.
    + exists (S k). split; lia.
Qed.

Lemma append_images_prefix (nested_list images us : list pyval) :
  Forall2 (λ img u, (a ← Py.getitem img 0; b ← Py.getitem a 0; Py.getitem b 0)
                    = Ok u)
    (take (length us) nested_list) us →
  (length us = length nested_list
   ∨ ∃ img e, nested_list !! length us = Some img
              ∧ (a ← Py.getitem img 0; b ← Py.getitem a 0; Py.getitem b 0)
                = Raise e) →
  ∃ raised, append_images nested_list images = (images ++ us, raised)
            ∧ ∀ e, raised = Some e → lookup_or_type_error e = true.
Proof.
  revert images us.
  induction nested_list as [|img rest IH]; intros images us Hus Hend.
  - rewrite take_nil in Hus. apply Forall2_nil_inv_l in Hus as ->.
    exists None. rewrite app_nil_r. by split.
  - destruct us as [|u us]; cbn [append_images].
    + destruct Hend as [[=]|(img' & e & [= <-] & He)].
      rewrite He, app_nil_r. exists (Some e). split; [done|].
      intros ? [= <-]. by eapply getitem3_raises.
    + simpl in Hus. apply Forall2_cons in Hus as [Hu Hus]. rewrite Hu.
      destruct (IH (images ++ [u]) us Hus) as (raised & Hrun & Hraised).
      { destruct Hend as [[= ?]|?]; [by left|by right]. }
      exists raised. by rewrite Hrun, <- app_assoc.
Qed.

(** The block that gathers the image links never raises, whatever the
    resolved answer looks like: every exception its indexing can meet is
    one the handler of line 305 names. What it gathers: from an answer of
    at least three entries whose [resp_json[4][0][4]] can be iterated, the
    links [img[0][0][0]] of the leading entries up to the first one that
    cannot be indexed so, those gathered before it being kept; nothing from
    an answer of fewer than three entries, one without a length, or one
    whose [resp_json[4][0][4]] cannot be reached or iterated. *)
Theorem gather_images_total (resp_json : pyval) :
  (∃ images, gather_images resp_json = Ok images)
  ∧ (∀ n nested_list us,
       Py.len resp_json = Ok n → (3 ≤ n)%nat →
       (a ← Py.getitem resp_json 4; b ← Py.getitem a 0; c ← Py.getitem b 4;
        Py.iter c) = Ok nested_list →
       Forall2 (λ img u, (a ← Py.getitem img 0; b ← Py.getitem a 0;
                          Py.getitem b 0) = Ok u)
         (take (length us) nested_list) us →
       (length us = length nested_list
        ∨ ∃ img e, nested_list !! length us = Some img
                   ∧ (a ← Py.getitem img 0; b ← Py.getitem a 0;
                      Py.getitem b 0) = Raise e) →
       gather_images resp_json = Ok us)
  ∧ (∀ n, Py.len resp_json = Ok n → (n < 3)%nat →
          gather_images resp_json = Ok [])
  ∧ (∀ e, Py.len resp_json = Raise e → gather_images resp_json = Ok [])
  ∧ (∀ e, (a ← Py.getitem resp_json 4; b ← Py.getitem a 0;
           c ← Py.getitem b 4; Py.iter c) = Raise e →
          gather_images resp_json = Ok []).
Proof.
  assert (∀ e, (a ← Py.getitem resp_json 4; b ← Py.getitem a 0;
                c ← Py.getitem b 4; Py.iter c) = Raise e →
               lookup_or_type_error e = true) as Hreach.
  { intros e Hnested.
    destruct (Py.getitem resp_json 4) as [a|?] eqn:Ha; simpl in Hnested;
      [|injection Hnested as <-; by eapply getitem_raises].
    destruct (Py.getitem a 0) as [b|?] eqn:Hb; simpl in Hnested;
      [|injection Hnested as <-; by eapply getitem_raises].
    destruct (Py.getitem b 4) as [c|?] eqn:Hc; simpl in Hnested;
      [|injection Hnested as <-; by eapply getitem_raises].
    by eapply iter_raises. }
  unfold gather_images. repeat split.
  - destruct (Py.len resp_json) as [n|e] eqn:Hlen.
    + destruct (decide (3 ≤ n)%nat); [|by eexists].
      destruct (_ ≫= _) as [nested_list|e] eqn:Hnested.
      * destruct (append_images nested_list []) as [images [e|]] eqn:Happ;
          [|by eexists].
        rewrite (append_images_raises _ _ _ _ Happ). by eexists.
      * rewrite (Hreach e) by done. by eexists.
    + rewrite (len_raises _ _ Hlen). by eexists.
  - intros n nested_list us -> Hn -> Hus Hend.
    rewrite decide_True by done.
    destruct (append_images_prefix nested_list [] us Hus Hend)
      as (raised & -> & Hraised).
    destruct raised as [e|]; [|done]. by rewrite (Hraised e).
  - intros n -> Hn. by rewrite decide_False by lia.
  - intros e Hlen. by rewrite Hlen, (len_raises _ _ Hlen).
  - intros e Hnested. destruct (Py.len resp_json) as [n|e'] eqn:Hlen.
    + destruct (decide (3 ≤ n)%nat); [|done].
      by rewrite Hnested, (Hreach e).
    + by rewrite (len_raises _ _ Hlen).
Qed.

(** [ask] checks the status first: anything but 200 raises the status
    error, nothing is decoded and the client is left alone. *)
Theorem ask_refuses_bad_status (w : World) (self : Bard) (prompt : string)
    (image image_name : option string) (tool : option Tool)
    (rq : Request) (resp : Response) :
  ask_request w self prompt image image_name tool = Ok rq →
  http_post w (session self) rq = Ok resp →
  status_code resp ≠ 200 →
  ask w self prompt image image_name tool
  = (Raise (status_error (status_code resp)), self).
Proof.
  intros Hrq Hpost Hstatus. unfold ask, ask_decode.
  rewrite Hrq. simpl. rewrite Hpost. simpl.
  by rewrite (proj2 (Z.eqb_neq _ _) Hstatus).
Qed.

(** A body without any [wrb.fr] line makes [ask] raise [IndexError]. *)
Theorem ask_without_frame (w : World) (self : Bard) (prompt : string)
    (image image_name : option string) (tool : option Tool)
    (rq : Request) (resp : Response) :
  ask_request w self prompt image image_name tool = Ok rq →
  http_post w (session self) rq = Ok resp →
  status_code resp = 200 →
  Forall (λ line, Str.startswith wrb_prefix line = false)
    (Str.splitlines (content resp)) →
  ask w self prompt image image_name tool = (Raise IndexError, self).
Proof.
  intros Hrq Hpost Hstatus Hnone. unfold ask, ask_decode.
  rewrite Hrq. simpl. rewrite Hpost. simpl. rewrite Hstatus. simpl.
  assert (filter (λ line, Str.startswith wrb_prefix line = true)
            (Str.splitlines (content resp)) = []) as ->; [|done].
  induction Hnone as [|line lines Hline _ IH]; [done|].
  rewrite filter_cons. case_decide; [congruence|done].
Qed.

(** When the payload of the last [wrb.fr] line decodes to an empty value,
    line 709 raises a dict: Python answers with a [TypeError], and the
    message the dict was to carry is lost. *)
Theorem ask_empty_answer_type_error (w : World) (self : Bard) (prompt : string)
    (image image_name : option string) (tool : option Tool)
    (rq : Request) (resp : Response) (jsons : list pyval) (resp_json : pyval) :
  ask_request w self prompt image image_name tool = Ok rq →
  http_post w (session self) rq = Ok resp →
  status_code resp = 200 →
  mapM (λ line, v ← payload_of_line line; loads_value v)
    (filter (λ line, Str.startswith wrb_prefix line = true)
       (Str.splitlines (content resp))) = Ok jsons →
  Py.from_end jsons 1 = Ok resp_json →
  Py.truthy resp_json = false →
  ask w self prompt image image_name tool = (Raise TypeError, self).
Proof.
  intros Hrq Hpost Hstatus Hjsons Hlast Hfalse. unfold ask, ask_decode.
  rewrite Hrq. simpl. rewrite Hpost. simpl. rewrite Hstatus. simpl.
  rewrite Hjsons. simpl. rewrite Hlast. simpl. by rewrite Hfalse.
Qed.

(** The file name [export_replit] sends. A language that
    [REPLIT_SUPPORT_PROGRAM_LANGUAGES] does not list, and no file name: the
    call raises before it sends anything, and the counter stays. Otherwise
    one request is posted, and it carries the file name given or, when none
    is given, the one the table has for the language: the call comes to the
    same in any two worlds whose transports answer that request alike. *)
Theorem export_replit_file_name (w : World) (self : Bard) (code : pyval)
    (instructions source_path : option string) :
  (∀ program_lang,
     program_lang ≫= (REPLIT_SUPPORT_PROGRAM_LANGUAGES !!.) = None →
     export_replit w self code program_lang None instructions source_path
     = (Raise (Exception ("Language "
                          +:+ match program_lang with
                              | Some l => l
                              | None => "None"
                              end
                          +:+ " not supported, please set filename manually.")),
        self))
  ∧ (∀ program_lang filename name w',
       filename = Some name
       ∨ filename = None
         ∧ program_lang ≫= (REPLIT_SUPPORT_PROGRAM_LANGUAGES !!.) = Some name →
       let rq := {| url := batchexecute;
                    params := [("rpcids", "qACoKe");
                               ("source-path", default "/" source_path);
                               ("bl", TEXT_GENERATION_WEB_SERVER_PARAM);
                               ("_reqid", Str.of_int (_reqid self));
                               ("rt", "c")];
                    f_req := ReplitPayload (VStr (default "" instructions))
                                           code (Some name);
                    at_token := SNlM0e self |} in
       http_post w (session self) rq = http_post w' (session self) rq →
       export_replit w self code program_lang filename instructions source_path
       = export_replit w' self code program_lang filename instructions
           source_path).
Proof.
  split.
  - intros program_lang Hno. unfold export_replit. rewrite Hno.
    rewrite !bool_decide_eq_true_2 by done. simpl. by destruct program_lang.
  - intros program_lang filename name w' Hname rq Hpost.
    unfold export_replit.
    destruct Hname as [->|[-> Hname]].
    + rewrite (bool_decide_eq_false_2 (Some name = None)) by done.
      rewrite andb_false_r. fold rq. by rewrite Hpost.
    + rewrite Hname.
      rewrite (bool_decide_eq_false_2 (Some name = None)) by done.
      simpl. fold rq. by rewrite Hpost.
Qed.

(** The error mapping that [get_answer] returns for an empty payload slot
    cannot be exported: [export_conversation] raises [KeyError] on it before
    it sends anything; and so for every mapping without the three
    identifiers. *)
Theorem export_conversation_needs_ids (w : World) (self : Bard)
    (title : string) :
  (∀ resp, export_conversation w self (response_error resp) title
           = (Raise KeyError, self))
  ∧ (∀ bard_answer e, answer_ids bard_answer = Raise e →
       export_conversation w self bard_answer title = (Raise e, self)).
Proof.
  split; [done|]. intros bard_answer e. unfold answer_ids, export_conversation.
  destruct (Py.getkey bard_answer "conversation_id") as [c|?]; simpl;
    [|by intros [= ->]].
  destruct (Py.getkey bard_answer "response_id") as [r|?]; simpl;
    [|by intros [= ->]].
  destruct (Py.getkey bard_answer "choices") as [choices|?]; simpl;
    [|by intros [= ->]].
  destruct (Py.getitem choices 0) as [first|?]; simpl; [|by intros [= ->]].
  destruct (Py.getkey first "id") as [ch|?]; simpl; [done|by intros [= ->]].
Qed.

(** With a language configured that is in [ALLOWED_LANGUAGES], no branch
    of lines 519-542 binds [translated_input_text]: once the image is
    uploaded, [ask_about_image] raises [UnboundLocalError]. *)
Theorem ask_about_image_allowed_language_unbound (w : World) (self : Bard)
    (input_text image : string) (lang : option string) (l : string)
    (image_url : pyval) :
  language self = Some l →
  l ∈ ALLOWED_LANGUAGES →
  (google_translator_api_key self = None →
   ∃ translate, GoogleTranslator w "auto" "en" = Ok translate) →
  upload_image w image = Ok image_url →
  ask_about_image w self input_text image lang = (Raise UnboundLocalError, self).
Proof.
  intros Hl Hin Htr Hup.
  unfold ask_about_image, ask_about_image_request, image_translate_input,
    language_not_allowed.
  rewrite Hl. rewrite (bool_decide_eq_false_2 (l ∉ _)) by (intros ?; done).
  rewrite (bool_decide_eq_true_2 (Some l ≠ None)) by done.
  rewrite (bool_decide_eq_false_2 (Some l = None)) by done.
  simpl. rewrite !andb_false_r. simpl.
  destruct (google_translator_api_key self) as [key|] eqn:Hkey; simpl.
  - by rewrite Hup.
  - destruct (Htr eq_refl) as [translate ->]. simpl. by rewrite Hup.
Qed.

(** Without an API key the [lang] argument of [ask_about_image] has no
    part in the translation of the answer: of the four key-less branches
    the first two cover every case, so the branch of line 603, the only one
    that reads [lang], is never reached. The content is translated from
    English to [self.language], its translation failing in silence, or
    left as it is when the client has no language; and the answer is
    decoded in the same way whatever [lang] is. *)
Theorem ask_about_image_lang_unused (w : World) (self : Bard)
    (input_text : string) (lang : option string) (content : pyval) :
  google_translator_api_key self = None →
  image_translate_content w self input_text lang content
  = Some match language self with
         | None => content
         | Some l =>
             try_except (translate ← GoogleTranslator w "en" l;
                         translate content)
               content
         end
  ∧ ∀ lang' resp,
      ask_about_image_decode w self input_text lang resp
      = ask_about_image_decode w self input_text lang' resp.
Proof.
  intros Hkey.
  assert (∀ lang content,
            image_translate_content w self input_text lang content
            = Some match language self with
                   | None => content
                   | Some l =>
                       try_except (translate ← GoogleTranslator w "en" l;
                                   translate content)
                         content
                   end) as Hcontent.
  { intros lang0 content0. unfold image_translate_content. rewrite Hkey.
    destruct (language self) as [l|]; [|done].
    destruct (GoogleTranslator w "en" l) as [translate|e]; [simpl|done].
    by destruct (translate content0). }
  split; [apply Hcontent|].
  intros lang' resp. unfold ask_about_image_decode.
  destruct (Py.at_index _ 3) as [line|e]; [simpl|done].
  destruct (payload_of_line line) as [resp_dict|e]; [simpl|done].
  destruct (negb (Py.truthy resp_dict)); [done|].
  destruct (loads_value resp_dict) as [parsed|e]; [simpl|done].
  destruct (primary_fragment parsed) as [fragment|e]; [simpl|done].
  by rewrite !Hcontent.
Qed.

(** A client fresh from the constructor: the counter is a number of at
    most four digits, the conversation is the one asked for (or none), no
    response or choice is selected, and that is what its first request
    sends; the language argument goes before [_BARD_API_LANG]. *)
Theorem init_fresh_client (w : World) (a : InitArgs) (self : Bard) :
  init w a = Ok self →
  0 ≤ _reqid self ≤ 9999
  ∧ client_ids self
    = (VStr (default "" (nonempty (arg_conversation_id a))), VStr "", VStr "")
  ∧ (∀ w' input_text image image_name tool rq,
       get_answer_request w' self input_text image image_name tool = Ok rq →
       sent_ids rq
       = Some (VStr (default "" (nonempty (arg_conversation_id a))),
               VStr "", VStr ""))
  ∧ language self = match nonempty (arg_language a) with
                    | Some l => Some l
                    | None => getenv w "_BARD_API_LANG"
                    end.
Proof.
  unfold init. intros Hinit.
  apply bind_Ok_inv in Hinit as ([token cookie_dict] & _ & Hinit).
  apply bind_Ok_inv in Hinit as (snim0e & _ & Hinit).
  injection Hinit as <-. split; [apply seed_range|]. split; [done|].
  split; [|done].
  intros w' input_text image image_name tool rq Hrq.
  unfold get_answer_request in Hrq.
  apply bind_Ok_inv in Hrq as (translated & _ & Hrq).
  apply bind_Ok_inv in Hrq as (s & Hs & Hrq). injection Hrq as <-.
  by rewrite (text_struct_ids _ _ _ _ _ _ _ Hs).
Qed.

(** With the multi-cookie mode on and the browser as the source, every
    cookie the browser gave is in the cookie dictionary of the client and
    in the jar of the session the constructor builds. *)
Theorem init_keeps_browser_cookies (w : World) (a : InitArgs) (self : Bard)
    (d : gmap string string) :
  nonempty (arg_token a) = None →
  nonempty (getenv w "_BARD_API_KEY") = None →
  arg_token_from_browser a = true →
  arg_multi_cookies_bool a = true →
  arg_session a = None →
  extract_bard_cookie w true = Ok d →
  init w a = Ok self →
  cookie_dict self = Some d
  ∧ ∀ k v, d !! k = Some v → cookies (session self) !! k = Some v.
Proof.
  intros Htoken Henv Hbrowser Hmulti Hsession Hd. unfold init.
  intros Hinit.
  apply bind_Ok_inv in Hinit as ([psid cd] & Hcd & Hinit).
  apply bind_Ok_inv in Hinit as (snim0e & _ & Hinit).
  assert (cd = Some d) as ->.
  { unfold _get_token in Hcd.
    rewrite Htoken, Henv, Hbrowser, Hmulti, Hd in Hcd. simpl in Hcd.
    destruct (_ || _); [congruence|].
    destruct (bool_decide _); congruence. }
  injection Hinit as <-. split; [done|]. intros k v Hk.
  rewrite Hsession. simpl. by apply lookup_union_Some_l.
Qed.

(** [_get_session]: a session that is passed in is used as it is. A new
    one has the session headers and the proxies, every cookie of the cookie
    dictionary, and [__Secure-1PSID] set to the token unless the dictionary
    has a value for it. *)
Theorem get_session_cookies (token : string)
    (proxies cookie_dict : option (gmap string string)) :
  (∀ s, _get_session SESSION_HEADERS token proxies cookie_dict (Some s) = s)
  ∧ headers (_get_session SESSION_HEADERS token proxies cookie_dict None)
    = SESSION_HEADERS
  ∧ session_proxies (_get_session SESSION_HEADERS token proxies cookie_dict None)
    = proxies
  ∧ (∀ k, k ≠ "__Secure-1PSID" →
       cookies (_get_session SESSION_HEADERS token proxies cookie_dict None) !! k
       = cookie_dict ≫= (.!! k))
  ∧ cookies (_get_session SESSION_HEADERS token proxies cookie_dict None)
      !! "__Secure-1PSID"
    = Some (default token (cookie_dict ≫= (.!! "__Secure-1PSID"))).
Proof.
  split; [done|]. split; [done|]. split; [done|]. split.
  - intros k Hk. destruct cookie_dict as [d|]; simpl.
    + rewrite lookup_union. rewrite lookup_singleton_ne by done.
      by destruct (d !! k).
    + by rewrite lookup_singleton_ne.
  - destruct cookie_dict as [d|]; simpl.
    + rewrite lookup_union, lookup_singleton_eq.
      by destruct (d !! "__Secure-1PSID").
    + by rewrite lookup_singleton_eq.
Qed.

(** Translating the answer touches nothing but the first content fragment
    of each candidate: every slot of the resolved answer other than slot 4
    is what it was, and the candidates keep their ids, in their order. *)
Theorem translate_answer_keeps_ids (w : World) (self : Bard)
    (parsed_answer translated : pyval) :
  translate_answer ALLOWED_LANGUAGES w self parsed_answer = Ok translated →
  (∀ i, i ≠ 4%nat → Py.getitem translated i = Py.getitem parsed_answer i)
  ∧ choice_ids translated = choice_ids parsed_answer.
Proof.
  unfold translate_answer.
  destruct (foreign_language self) as [target|]; [|by intros [= <-]].
  intros Hrun.
  apply bind_Ok_inv in Hrun as (f & _ & Hrun).
  apply bind_Ok_inv in Hrun as (choices & Hchoices & Hrun).
  apply bind_Ok_inv in Hrun as (xs & Hxs & Hrun).
  apply bind_Ok_inv in Hrun as (ys & Hys & Hrun).
  destruct parsed_answer as [| | | | |l|]; try discriminate.
  simpl in Hrun. case_decide; [|discriminate]. injection Hrun as <-.
  split.
  - intros i Hi. simpl. by rewrite list_lookup_insert_ne.
  - unfold choice_ids. rewrite Hchoices. simpl.
    rewrite list_lookup_insert_eq by done. simpl. rewrite Hxs. simpl.
    apply mapM_Ok_inv in Hys. clear Hxs Hchoices.
    induction Hys as [|x y xs ys Hxy _ IH]; [done|]. simpl.
    rewrite IH. f_equal. unfold translate_choice in Hxy.
    apply bind_Ok_inv in Hxy as (x0 & Hx0 & Hxy).
    apply bind_Ok_inv in Hxy as (x1 & _ & Hxy).
    apply bind_Ok_inv in Hxy as (fragment & _ & Hxy).
    apply bind_Ok_inv in Hxy as (t & _ & Hxy).
    apply bind_Ok_inv in Hxy as (others & _ & Hxy).
    apply bind_Ok_inv in Hxy as (contents & _ & Hxy).
    apply bind_Ok_inv in Hxy as (x2 & _ & Hxy).
    injection Hxy as <-. by rewrite Hx0.
Qed.

Lemma image_answer_fields (translated_content parsed_answer : pyval)
    (status : Z) (d : pyval) :
  image_answer translated_content parsed_answer status = Ok d →
  keys_of d = Some Utils.answer_keys
  ∧ Py.getkey d "content" = Ok translated_content
  ∧ Py.getkey d "images" = Ok (VList [VStr ""])
  ∧ Py.getkey d "program_lang" = Ok (VStr "")
  ∧ Py.getkey d "code" = Ok (VStr "")
  ∧ ∃ links, Py.getkey d "links" = Ok (VList links)
             ∧ Forall Links.link_value links.
Proof.
  unfold image_answer. intros Hd.
  repeat match type of Hd with
         | _ ≫= _ = Ok _ => apply bind_Ok_inv in Hd as (? & _ & Hd)
         end.
  injection Hd as <-. repeat split; try done.
  eexists. split; [done|]. apply extract_links_values.
Qed.

(** The mapping [ask_about_image] returns: the error mapping of the empty
    payload slot, with the client left alone, or a mapping with exactly the
    eleven keys of the docstring, in which [images] is a list with one
    empty string, [program_lang] and [code] are empty strings, and [links]
    holds nothing but links. *)
Theorem ask_about_image_mapping (w : World) (self : Bard)
    (input_text image : string) (lang : option string)
    (d : pyval) (self' : Bard) :
  ask_about_image w self input_text image lang = (Ok d, self') →
  ((∃ resp, d = response_error resp) ∧ self' = self)
  ∨ (keys_of d = Some Utils.answer_keys
     ∧ Py.getkey d "images" = Ok (VList [VStr ""])
     ∧ Py.getkey d "program_lang" = Ok (VStr "")
     ∧ Py.getkey d "code" = Ok (VStr "")
     ∧ ∃ links, Py.getkey d "links" = Ok (VList links)
                ∧ Forall Links.link_value links).
Proof.
  intros Hrun.
  destruct (ask_about_image_cases w self input_text image lang)
    as [[e He]|[[resp He]|(b&ids&t&parsed&status&Hb&_&He)]];
    rewrite He in Hrun.
  - discriminate.
  - injection Hrun as <- <-. left. eauto.
  - injection Hrun as <- <-. right.
    by destruct (image_answer_fields _ _ _ _ Hb) as (?&?&?&?&?&?).
Qed.

(** A call that raises leaves the client as it was: [ask],
    [ask_about_image], [speech] and the two exports always, [get_answer]
    whenever [run_code] is off. *)
Theorem failed_call_keeps_client (w : World) (self : Bard) :
  (∀ input_text image image_name tool e,
     run_code self = false →
     (get_answer w self input_text image image_name tool).1 = Raise e →
     (get_answer w self input_text image image_name tool).2 = self)
  ∧ (∀ input_text image lang e,
       (ask_about_image w self input_text image lang).1 = Raise e →
       (ask_about_image w self input_text image lang).2 = self)
  ∧ (∀ prompt image image_name tool e,
       (ask w self prompt image image_name tool).1 = Raise e →
       (ask w self prompt image image_name tool).2 = self)
  ∧ (∀ bard_answer title e,
       (export_conversation w self bard_answer title).1 = Raise e →
       (export_conversation w self bard_answer title).2 = self)
  ∧ (∀ code program_lang filename instructions source_path e,
       (export_replit w self code program_lang filename instructions
          source_path).1 = Raise e →
       (export_replit w self code program_lang filename instructions
          source_path).2 = self).
Proof.
  repeat split.
  - intros input_text image image_name tool e Hoff. unfold get_answer.
    rewrite Hoff. by destruct (_ ≫= _) as [[?|??]|?].
  - intros input_text image lang e.
    by destruct (ask_about_image_cases w self input_text image lang)
      as [[? ->]|[[? ->]|(?&?&?&?&?&_&_&->)]].
  - intros prompt image image_name tool e.
    by destruct (ask_cases w self prompt image image_name tool)
      as [[? ->]|(?&?&?&_&->)].
  - intros bard_answer title e.
    by destruct (export_conversation_cases w self bard_answer title)
      as [[? ->]|[? ->]].
  - intros code program_lang filename instructions source_path e.
    by destruct (export_replit_cases w self code program_lang filename
                   instructions source_path) as [[? ->]|[? ->]].
Qed.

(** What [speech] returns when it returns: with an empty payload slot on
    the fourth line of the response, the error mapping that quotes the
    response; otherwise the mapping of [audio], the base64 decoding of
    entry 0 of the payload, and [status_code], the status of the
    response. *)
Theorem speech_mapping (w : World) (self : Bard) (input_text lang : string)
    (d : pyval) :
  (speech w self input_text lang).1 = Ok d →
  ∃ resp line resp_dict,
    http_post w (session self)
      (speech_request TEXT_GENERATION_WEB_SERVER_PARAM self input_text lang)
    = Ok resp
    ∧ Py.at_index (Str.splitlines (content resp)) 3 = Ok line
    ∧ payload_of_line line = Ok resp_dict
    ∧ (Py.truthy resp_dict = false ∧ d = response_error resp
       ∨ Py.truthy resp_dict = true
         ∧ ∃ resp_json audio_b64 audio,
             loads_value resp_dict = Ok resp_json
             ∧ Py.getitem resp_json 0 = Ok audio_b64
             ∧ b64decode audio_b64 = Ok audio
             ∧ d = VDict [("audio", VStr audio);
                          ("status_code", VInt (status_code resp))]).
Proof.
  unfold speech. simpl. intros Hd.
  apply bind_Ok_inv in Hd as (resp & Hresp & Hd).
  apply bind_Ok_inv in Hd as (line & Hline & Hd).
  apply bind_Ok_inv in Hd as (resp_dict & Hdict & Hd).
  exists resp, line, resp_dict. repeat (split; [done|]).
  destruct (Py.truthy resp_dict); simpl in Hd.
  - right. split; [done|].
    apply bind_Ok_inv in Hd as (resp_json & Hjson & Hd).
    apply bind_Ok_inv in Hd as (audio_b64 & Hb64 & Hd).
    apply bind_Ok_inv in Hd as (audio & Haudio & Hd).
    injection Hd as <-. eauto 10.
  - left. by injection Hd as <-.
Qed.

(** With a language outside [ALLOWED_LANGUAGES], translation rebuilds each
    candidate as the three-element list of its id, its contents and its
    third field: what a candidate holds beyond the third field is gone. *)
Theorem translate_answer_three_fields (w : World) (self : Bard)
    (target : string) (parsed_answer translated : pyval) :
  foreign_language self = Some target →
  translate_answer ALLOWED_LANGUAGES w self parsed_answer = Ok translated →
  ∃ ys, Py.getitem translated 4 = Ok (VList ys)
        ∧ Forall (λ y, ∃ x0 contents x2, y = VList [x0; VList contents; x2]) ys.
Proof.
  unfold translate_answer. intros ->. intros Hrun.
  apply bind_Ok_inv in Hrun as (f & _ & Hrun).
  apply bind_Ok_inv in Hrun as (choices & _ & Hrun).
  apply bind_Ok_inv in Hrun as (xs & _ & Hrun).
  apply bind_Ok_inv in Hrun as (ys & Hys & Hrun).
  destruct parsed_answer as [| | | | |l|]; try discriminate.
  simpl in Hrun. case_decide; [|discriminate]. injection Hrun as <-.
  exists ys. split; [simpl; by rewrite list_lookup_insert_eq|].
  apply mapM_Ok_inv in Hys.
  induction Hys as [|x y xs ys Hxy _ IH]; constructor; [|done].
  unfold translate_choice in Hxy.
  apply bind_Ok_inv in Hxy as (x0 & _ & Hxy).
  apply bind_Ok_inv in Hxy as (x1 & _ & Hxy).
  apply bind_Ok_inv in Hxy as (fragment & _ & Hxy).
  apply bind_Ok_inv in Hxy as (t & _ & Hxy).
  apply bind_Ok_inv in Hxy as (others & _ & Hxy).
  apply bind_Ok_inv in Hxy as (contents & Hcontents & Hxy).
  apply bind_Ok_inv in Hxy as (x2 & _ & Hxy).
  injection Hxy as <-.
  destruct others; try discriminate. injection Hcontents as <-. eauto.
Qed.

(** A client without API key (so that no [translate.Client] is built),
    with [run_code] off (so that no snippet is run), whose language is unset
    or in [ALLOWED_LANGUAGES], translates nothing: [get_answer] gives the
    same result and the same client in any two worlds with the same
    transport and the same image upload, whatever their translators, their
    language detection and their environment. *)
Theorem get_answer_allowed_language_no_translator (w w' : World) (self : Bard)
    (input_text : string) (image image_name : option string)
    (tool : option Tool) :
  run_code self = false →
  google_translator_api_key self = None →
  (∀ l, language self = Some l → l ∈ ALLOWED_LANGUAGES) →
  http_post w = http_post w' →
  upload_image w = upload_image w' →
  get_answer w self input_text image image_name tool
  = get_answer w' self input_text image image_name tool.
Proof.
  intros Hoff _ Hallowed Hpost Hupload.
  assert (foreign_language self = None) as Hforeign.
  { unfold foreign_language. destruct (language self) as [l|]; [|done].
    by rewrite decide_True by auto. }
  unfold get_answer, get_answer_request, translate_input, text_struct,
    get_answer_decode, translate_answer.
  by rewrite Hoff, Hforeign, Hpost, Hupload.
Qed.

(** What [_get_snim0e] returns is a list of strings, each of them
    non-empty, free of double quotes, and the value of a [nonce] attribute
    that stands in the landing page. *)
Theorem get_snim0e_values (w : World) (session : Session) (snim0e : pyval) :
  _get_snim0e w session = Ok snim0e →
  ∃ resp gs,
    http_get w session "https://gemini.google.com/" = Ok resp
    ∧ status_code resp = 200
    ∧ snim0e = VList (VStr <$> gs)
    ∧ Forall (λ g, g ≠ ""
                   ∧ Str.contains (String Str.dquote "") g = false
                   ∧ ∃ pre post,
                       text resp
                       = pre +:+ Nonce.opening +:+ g +:+ String Str.dquote post)
        gs.
Proof.
  unfold _get_snim0e. intros Hrun.
  apply bind_Ok_inv in Hrun as (resp & Hresp & Hrun).
  destruct (status_code resp =? 200) eqn:Hstatus; [|done].
  apply Z.eqb_eq in Hstatus. simpl in Hrun. injection Hrun as <-.
  exists resp, (Nonce.findall_go 0 (text resp)). repeat split; try done.
  apply Forall_forall. intros g Hg. by apply findall_go_sound in Hg.
Qed.

(** A landing page of status 200 that holds a [nonce] attribute with a
    non-empty value gives a non-empty list. *)
Theorem get_snim0e_finds_nonce (w : World) (session : Session)
    (resp : Response) (pre g post : string) :
  http_get w session "https://gemini.google.com/" = Ok resp →
  status_code resp = 200 →
  text resp = pre +:+ Nonce.opening +:+ g +:+ String Str.dquote post →
  g ≠ "" →
  Str.contains (String Str.dquote "") g = false →
  ∃ g' gs, _get_snim0e w session = Ok (VList (VStr g' :: gs)).
Proof.
  intros Hresp Hstatus Htext Hg Hquote. unfold _get_snim0e.
  rewrite Hresp. simpl. rewrite Hstatus. simpl. unfold Nonce.findall.
  rewrite Htext.
  pose proof (findall_go_complete pre g post Hg Hquote) as Hfound.
  destruct (Nonce.findall_go 0 _) as [|g' gs]; [done|]. simpl. eauto.
Qed.

End Facts.

(** * The answer mapping of [get_answer] *)

Lemma build_bard_answer_keys (parsed_answer : pyval) (images : list pyval)
    (program_lang code : pyval) (status : Z) (d : pyval) :
  Utils.build_bard_answer parsed_answer images program_lang code status = Ok d →
  keys_of d = Some Utils.answer_keys.
Proof.
  unfold Utils.build_bard_answer. intros Hd.
  repeat match type of Hd with
         | _ ≫= _ = Ok _ => apply bind_Ok_inv in Hd as (? & _ & Hd)
         end.
  by injection Hd as <-.
Qed.

(** C8 (as the code has it): with [run_code] off, a mapping that
    [get_answer] returns either has exactly the eleven fixed keys, or is the
    error mapping of the empty payload slot, whose only key is [content]; in
    the second case the client is left as it was. With [run_code] on, the
    snippet of line 356 runs with the mapping in its reach before it is
    returned, and may add or drop keys. *)
Theorem get_answer_keys (json_loads : string → result pyval)
    (ALLOWED_LANGUAGES : gset string)
    (TEXT_GENERATION_WEB_SERVER_PARAM : string)
    (Tool : Type) (tool_value : Tool → pyval)
    (w : World) (self : Bard) (input_text : string)
    (image image_name : option string) (tool : option Tool)
    (d : pyval) (self' : Bard) :
  run_code self = false →
  get_answer json_loads Utils.build_bard_answer ALLOWED_LANGUAGES
    TEXT_GENERATION_WEB_SERVER_PARAM Tool tool_value
    w self input_text image image_name tool = (Ok d, self') →
  keys_of d = Some Utils.answer_keys
  ∨ (∃ resp, d = response_error resp)
    ∧ keys_of d = Some ["content"] ∧ self' = self.
Proof.
  intros Hoff Hrun.
  destruct (get_answer_cases json_loads Utils.build_bard_answer
              ALLOWED_LANGUAGES TEXT_GENERATION_WEB_SERVER_PARAM Tool tool_value
              w self input_text image image_name tool Hoff)
    as [[e He]|[[resp He]|(b&ids&?&?&?&?&?&Hbuild&_&He)]].
  - by rewrite He in Hrun.
  - rewrite He in Hrun. injection Hrun as <- <-. right. eauto.
  - rewrite He in Hrun. injection Hrun as <- <-. left.
    by eapply build_bard_answer_keys.
Qed.

(** On a first turn that is answered, the mapping has the eleven keys. *)
Lemma get_answer_keys_witness :
  keys_of Calls.hi_answer = Some Utils.answer_keys
  ∨ (∃ resp, Calls.hi_answer = response_error resp)
    ∧ keys_of Calls.hi_answer = Some ["content"]
    ∧ bump_reqid (set_ids (Demo.client None) (VStr "c_1", VStr "r_1", VStr "rc_1"))
      = Demo.client None.
Proof.
  apply (get_answer_keys Json.loads Demo.ALLOWED_LANGUAGES
           Demo.TEXT_GENERATION_WEB_SERVER_PARAM unit (λ _, VStr "google_docs")
           Calls.answered (Demo.client None) "hello" None None None).
  - reflexivity.
  - vm_compute. reflexivity.
Defined.

(** C8 as stated fails when the payload slot of the primary line is
    empty: the mapping returned has the single key [content]. *)
Lemma get_answer_error_mapping_keys :
  (keys_of <$> (Demo.get_answer Calls.empty_slot (Demo.client None)
                  "hello" None None None).1) = Ok (Some ["content"])
  ∧ (keys_of <$> (Demo.get_answer Calls.empty_slot (Demo.client None)
                    "hello" None None None).1) ≠ Ok (Some Utils.answer_keys).
Proof. split; [by vm_compute|]. vm_compute. discriminate. Qed.

(** A body whose primary payload has an empty slot 4 and whose fallback
    line carries a null payload slot: the call raises [TypeError]. *)
Lemma get_answer_null_fallback_raises_witness :
  Demo.get_answer Calls.heartbeat_only (Demo.client None) "hello" None None None
  = (Raise TypeError, Demo.client None).
Proof.
  unfold Demo.get_answer.
  eapply (get_answer_null_fallback_raises Json.loads Utils.build_bard_answer
            Demo.ALLOWED_LANGUAGES Demo.TEXT_GENERATION_WEB_SERVER_PARAM unit
            (λ _, VStr "google_docs") Calls.heartbeat_only (Demo.client None)
            "hello" None None None _ _
            (Demo.answer_frame Demo.resolved_empty) (Demo.frame VNone)
            (VStr (Json.dumps Demo.resolved_empty)) Demo.resolved_empty).
  - reflexivity.
  - reflexivity.
  - vm_compute. reflexivity.
  - vm_compute. reflexivity.
  - reflexivity.
  - vm_compute. reflexivity.
  - reflexivity.
  - vm_compute. reflexivity.
  - vm_compute. reflexivity.
Defined.

(** When the fallback line holds the answer, the call returns it. *)
Lemma get_answer_fallback_answers :
  (Demo.get_answer Calls.answered_early (Demo.client None)
     "hello" None None None).1 = Ok Calls.hi_answer.
Proof. by vm_compute. Qed.

(** With the usual framing the fallback line is the empty second line of
    the body, and an empty slot 4 ends in a [ValueError] of [json.loads]. *)
Lemma get_answer_usual_framing_raises :
  (Demo.get_answer
     (Demo.world Demo.landing
        (Demo.page 200 (Demo.answer_body Demo.resolved_empty)))
     (Demo.client None) "hello" None None None).1
  = Raise ValueError.
Proof. by vm_compute. Qed.

(** After a first turn the client holds the identifiers of the answer. *)
Lemma conversation_ids_carried_witness :
  client_ids (Demo.get_answer Calls.answered (Demo.client None)
                "hello" None None None).2
  = (VStr "c_1", VStr "r_1", VStr "rc_1").
Proof.
  apply (proj1 (conversation_ids_carried Json.loads Utils.build_bard_answer
                  (H := Utils.result_model)
                  Demo.ALLOWED_LANGUAGES Demo.TEXT_GENERATION_WEB_SERVER_PARAM
                  unit (λ _, VStr "google_docs"))
           Calls.answered (Demo.client None) "hello" None None None
           Calls.hi_answer).
  - reflexivity.
  - vm_compute. reflexivity.
  - vm_compute. reflexivity.
Defined.

(** [ask] and [ask_about_image] store the identifiers of their answers in
    the same way. *)
Lemma ask_stores_ids :
  client_ids (Demo.ask Calls.answered (Demo.client None)
                "hello" None None None).2
  = (VStr "c_1", VStr "r_1", VStr "rc_1").
Proof. by vm_compute. Qed.

Lemma ask_about_image_stores_ids :
  client_ids (Demo.ask_about_image Calls.answered (Demo.client None)
                "what is this?" "JFIF" None).2
  = (VStr "c_1", VStr "r_1", VStr "rc_1").
Proof. by vm_compute. Qed.

(** C2 as stated fails when the next call is [ask_about_image]: after a
    first turn that stored the identifiers of its answer, the request of
    [ask_about_image] carries three empty strings, not those identifiers. *)
Lemma image_request_drops_ids :
  let self' := (Demo.get_answer Calls.answered (Demo.client None)
                  "hello" None None None).2 in
  client_ids self' = (VStr "c_1", VStr "r_1", VStr "rc_1")
  ∧ (sent_ids <$> ask_about_image_request Demo.ALLOWED_LANGUAGES
                    Calls.answered self' "what is this?" "JFIF" None)
    = Ok (Some (VStr "", VStr "", VStr ""))
  ∧ (sent_ids <$> ask_about_image_request Demo.ALLOWED_LANGUAGES
                    Calls.answered self' "what is this?" "JFIF" None)
    ≠ Ok (Some (client_ids self')).
Proof.
  split; [by vm_compute|]. split; [by vm_compute|].
  vm_compute. discriminate.
Qed.

(** The language code [xx], a prompt that is translated, an answer that
    is decoded, and a translator for the answer that cannot be built: the
    call raises what the translator raised. *)
Lemma get_answer_translation_failure_aborts_witness :
  Demo.get_answer Calls.translation_back_down (Demo.client (Some "xx"))
    "bonjour" None None None
  = (Raise (External "LanguageNotSupportedException"), Demo.client (Some "xx")).
Proof.
  unfold Demo.get_answer.
  refine (proj1 (get_answer_translation_failure_aborts Json.loads
                   Utils.build_bard_answer Demo.ALLOWED_LANGUAGES
                   Demo.TEXT_GENERATION_WEB_SERVER_PARAM unit
                   (λ _, VStr "google_docs")
                   Calls.translation_back_down (Demo.client (Some "xx"))
                   "bonjour" None None None "xx" _ _
                   (VStr (Json.dumps (Demo.resolved "c_1" "r_1" "rc_1" "Hi")))
                   (Demo.resolved "c_1" "r_1" "rc_1" "Hi")
                   (Demo.resolved "c_1" "r_1" "rc_1" "Hi")
                   (VStr "rc_1") (VStr "Hi") [] [VNone] []
                   (External "LanguageNotSupportedException")
                   _ _ _ _ _ _ _ _ _)).
  - reflexivity.
  - apply (bool_decide_unpack _). by vm_compute.
  - reflexivity.
  - vm_compute. reflexivity.
  - reflexivity.
  - vm_compute. reflexivity.
  - vm_compute. reflexivity.
  - reflexivity.
  - left. reflexivity.
Defined.

(** In the same world the sibling returns its answer, with the
    untranslated content. *)
Lemma ask_about_image_translation_failure_swallowed :
  (Demo.ask_about_image Calls.translation_back_down (Demo.client (Some "xx"))
     "what is this?" "JFIF" None).1 ≫= (λ d, Py.getkey d "content")
  = Ok (VStr "Hi").
Proof. by vm_compute. Qed.

(** With the same configuration and a working service the call returns. *)
Lemma get_answer_translated :
  (Demo.get_answer Calls.answered (Demo.client (Some "xx"))
     "bonjour" None None None).1 = Ok Calls.hi_answer.
Proof. by vm_compute. Qed.

(** A [speech] call that completes: the recording comes back and the
    client, its counter included, is what it was. *)
Lemma speech_completes_without_step :
  Demo.speech Calls.spoken (Demo.client None) "hello" "en-US"
  = (Ok (VDict [("audio", VStr ""); ("status_code", VInt 200)]),
     Demo.client None).
Proof. by vm_compute. Qed.

(** The other operations step the counter when they complete. *)
Lemma get_answer_steps_reqid :
  _reqid (Demo.get_answer Calls.answered (Demo.client None)
            "hello" None None None).2 = _reqid (Demo.client None) + 100000.
Proof. by vm_compute. Qed.

(** A browser that holds cookies but not [__Secure-1PSID]: no explicit
    token, no environment variable, nothing usable in the browser, and yet
    the constructor, called with [token_from_browser] and
    [multi_cookies_bool] set, returns a client, whose token is the empty
    string. *)
Lemma init_without_credential_succeeds :
  arg_token (Demo.args None true true) = None
  ∧ getenv Calls.stale_browser "_BARD_API_KEY" = None
  ∧ (extract_bard_cookie Calls.stale_browser true
     ≫= λ d, Ok (d !! "__Secure-1PSID")) = Ok None
  ∧ token <$> Demo.init Calls.stale_browser (Demo.args None true true) = Ok "".
Proof. repeat split; by vm_compute. Qed.

Lemma get_token_missing_cookie_not_refused_witness :
  (∃ cookie_dict,
     _get_token Calls.stale_browser None true None true true
     = Ok ("", cookie_dict))
  ∧ ∀ self, Demo.init Calls.stale_browser (Demo.args None true true) = Ok self →
            token self = "".
Proof.
  apply (get_token_missing_cookie_not_refused Demo.SESSION_HEADERS
           Calls.stale_browser (Demo.args None true true)
           {[ "__Secure-1PSIDTS" := "sidts-CjEB" ]}).
  - reflexivity.
  - reflexivity.
  - reflexivity.
  - reflexivity.
  - vm_compute. reflexivity.
  - left. reflexivity.
Defined.

(** The three sources in their order: the explicit token before the
    environment, the environment before the browser, the browser last; and
    no source at all makes the constructor raise. *)
Lemma init_token_sources :
  token <$> Demo.init (Demo.world_with_env Demo.landing Demo.landing)
              (Demo.args (Some "g.a000token.") true false)
  = Ok "g.a000token."
  ∧ token <$> Demo.init (Demo.world_with_env Demo.landing Demo.landing)
                (Demo.args (Some "") true false)
    = Ok "g.a000env."
  ∧ token <$> Demo.init
                (Demo.world_with_browser
                   {[ "__Secure-1PSID" := "g.a000browser." ]}
                   Demo.landing Demo.landing)
                (Demo.args None true false)
    = Ok "g.a000browser."
  ∧ Demo.init (Demo.world Demo.landing Demo.landing) (Demo.args None false false)
    = Raise token_error.
Proof. repeat split; by vm_compute. Qed.

(** A landing page of status 200 without a nonce: the constructor returns
    a client whose [SNlM0e] is the empty list. *)
Lemma init_without_nonce_succeeds :
  SNlM0e <$> Demo.init Calls.signed_out (Demo.args (Some "g.a000token.") false false)
  = Ok (VList []).
Proof. by vm_compute. Qed.

(** With a token, a landing page of status 200 and a nonce, the
    constructor returns the client the worked calls start from. *)
Lemma init_gives_client :
  Demo.init (Demo.world Demo.landing Demo.landing)
    (Demo.args (Some "g.a000token.") false false)
  = Ok (Demo.client None).
Proof. by vm_compute. Qed.

(** A landing page of another status makes the constructor raise. *)
Lemma init_bad_status_raises :
  Demo.init (Demo.world (Demo.page 302 "") Demo.landing)
    (Demo.args (Some "g.a000token.") false false)
  = Raise (status_error 302).
Proof. by vm_compute. Qed.

(** ** The extra properties on worked calls *)

(** A status of 429 makes [ask] raise, with the status in the message. *)
Lemma ask_refuses_bad_status_witness :
  Demo.ask Calls.refused (Demo.client None) "hello" None None None
  = (Raise (status_error 429), Demo.client None).
Proof.
  unfold Demo.ask.
  eapply (ask_refuses_bad_status Json.loads (H := Utils.result_model)
            Demo.TEXT_GENERATION_WEB_SERVER_PARAM unit (λ _, VStr "google_docs")
            Calls.refused (Demo.client None) "hello" None None None
            _ (Demo.page 429 "Too Many Requests")).
  - reflexivity.
  - reflexivity.
  - vm_compute. discriminate.
Defined.

(** A body of status 200 without a [wrb.fr] line. *)
Lemma ask_without_frame_witness :
  Demo.ask Calls.unframed (Demo.client None) "hello" None None None
  = (Raise IndexError, Demo.client None).
Proof.
  unfold Demo.ask.
  eapply (ask_without_frame Json.loads (H := Utils.result_model)
            Demo.TEXT_GENERATION_WEB_SERVER_PARAM unit (λ _, VStr "google_docs")
            Calls.unframed (Demo.client None) "hello" None None None).
  - reflexivity.
  - reflexivity.
  - reflexivity.
  - vm_compute. repeat constructor.
Defined.

(** A frame whose payload is the empty array. *)
Lemma ask_empty_answer_type_error_witness :
  Demo.ask Calls.empty_answer (Demo.client None) "hello" None None None
  = (Raise TypeError, Demo.client None).
Proof.
  unfold Demo.ask.
  eapply (ask_empty_answer_type_error Json.loads (H := Utils.result_model)
            Demo.TEXT_GENERATION_WEB_SERVER_PARAM unit (λ _, VStr "google_docs")
            Calls.empty_answer (Demo.client None) "hello" None None None
            _ _ [VList []] (VList [])).
  - reflexivity.
  - reflexivity.
  - reflexivity.
  - vm_compute. reflexivity.
  - reflexivity.
  - reflexivity.
Defined.

(** A client set to English, which is in [ALLOWED_LANGUAGES], cannot ask
    about an image. *)
Lemma ask_about_image_allowed_language_unbound_witness :
  Demo.ask_about_image Calls.answered (Demo.client (Some "en"))
    "what is this?" "JFIF" None
  = (Raise UnboundLocalError, Demo.client (Some "en")).
Proof.
  unfold Demo.ask_about_image.
  eapply (ask_about_image_allowed_language_unbound Json.loads
            Demo.ALLOWED_LANGUAGES Calls.answered (Demo.client (Some "en"))
            "what is this?" "JFIF" None "en").
  - reflexivity.
  - apply (bool_decide_unpack _). by vm_compute.
  - intros _. eexists. reflexivity.
  - reflexivity.
Defined.

(** A client without language and without API key, asked with [lang] set
    to Korean: the content is left as it is. *)
Lemma ask_about_image_lang_unused_witness :
  image_translate_content Calls.translating (Demo.client None)
    "what is this?" (Some "ko") (VStr "Hi")
  = Some (VStr "Hi").
Proof.
  exact (proj1 (ask_about_image_lang_unused Json.loads Calls.translating
                  (Demo.client None) "what is this?" (Some "ko") (VStr "Hi")
                  eq_refl)).
Defined.

(** The client the constructor builds from a token. *)
Lemma init_fresh_client_witness :
  ∃ self,
    Demo.init Calls.answered (Demo.args (Some "g.a000token.") false false)
    = Ok self
    ∧ 0 ≤ _reqid self ≤ 9999
    ∧ client_ids self = (VStr "", VStr "", VStr "")
    ∧ language self = None.
Proof.
  eexists. split; [vm_compute; reflexivity|].
  destruct (init_fresh_client Demo.ALLOWED_LANGUAGES Demo.SESSION_HEADERS
              Demo.TEXT_GENERATION_WEB_SERVER_PARAM unit
              (λ _, VStr "google_docs") Calls.answered
              (Demo.args (Some "g.a000token.") false false) _
              ltac:(vm_compute; reflexivity)) as (Hreqid & Hids & _ & Hlang).
  split; [exact Hreqid|]. split; [exact Hids|exact Hlang].
Defined.

(** The multi-cookie constructor in a world whose browser holds one cookie. *)
Lemma init_keeps_browser_cookies_witness :
  ∃ self,
    Demo.init Calls.stale_browser (Demo.args None true true) = Ok self
    ∧ cookie_dict self = Some {[ "__Secure-1PSIDTS" := "sidts-CjEB" ]}
    ∧ cookies (session self) !! "__Secure-1PSIDTS" = Some "sidts-CjEB".
Proof.
  eexists. split; [vm_compute; reflexivity|].
  destruct (init_keeps_browser_cookies Demo.SESSION_HEADERS Calls.stale_browser
              (Demo.args None true true) _
              {[ "__Secure-1PSIDTS" := "sidts-CjEB" ]}
              eq_refl eq_refl eq_refl eq_refl eq_refl eq_refl
              ltac:(vm_compute; reflexivity)) as [Hdict Hjar].
  split; [exact Hdict|]. apply Hjar. reflexivity.
Defined.

(** A client set to a foreign language translating a resolved answer. *)
Lemma translate_answer_keeps_ids_witness :
  choice_ids (Demo.resolved "c_1" "r_1" "rc_1" "Salut")
  = choice_ids (Demo.resolved "c_1" "r_1" "rc_1" "Hi").
Proof.
  apply (translate_answer_keeps_ids Demo.ALLOWED_LANGUAGES Calls.translating
           (Demo.client (Some "xx"))
           (Demo.resolved "c_1" "r_1" "rc_1" "Hi")
           (Demo.resolved "c_1" "r_1" "rc_1" "Salut")).
  vm_compute. reflexivity.
Defined.

Lemma translate_answer_three_fields_witness :
  ∃ ys, Py.getitem (Demo.resolved "c_1" "r_1" "rc_1" "Salut") 4 = Ok (VList ys)
        ∧ Forall (λ y, ∃ x0 contents x2, y = VList [x0; VList contents; x2]) ys.
Proof.
  apply (translate_answer_three_fields Demo.ALLOWED_LANGUAGES Calls.translating
           (Demo.client (Some "xx")) "xx"
           (Demo.resolved "c_1" "r_1" "rc_1" "Hi")).
  - vm_compute. reflexivity.
  - vm_compute. reflexivity.
Defined.

(** The mapping of a first turn about an image. *)
Lemma ask_about_image_mapping_witness :
  ∃ d, (Demo.ask_about_image Calls.answered (Demo.client None)
          "what is this?" "JFIF" None).1 = Ok d
       ∧ keys_of d = Some Utils.answer_keys
       ∧ Py.getkey d "images" = Ok (VList [VStr ""]).
Proof.
  eexists. split; [vm_compute; reflexivity|].
  destruct (ask_about_image_mapping Json.loads Demo.ALLOWED_LANGUAGES
              Calls.answered (Demo.client None) "what is this?" "JFIF" None
              _ _ ltac:(vm_compute; reflexivity))
    as [[[resp Hresp] _]|(Hkeys & Himages & _)].
  - discriminate Hresp.
  - split; [exact Hkeys|exact Himages].
Defined.

(** The mapping of a [speech] call that completes. *)
Lemma speech_mapping_witness :
  ∃ resp line resp_dict,
    http_post Calls.spoken (session (Demo.client None))
      (speech_request Demo.TEXT_GENERATION_WEB_SERVER_PARAM (Demo.client None)
         "hello" "en-US") = Ok resp
    ∧ Py.at_index (Str.splitlines (content resp)) 3 = Ok line
    ∧ payload_of_line Json.loads line = Ok resp_dict
    ∧ (Py.truthy resp_dict = false
       ∧ VDict [("audio", VStr ""); ("status_code", VInt 200)]
         = response_error resp
       ∨ Py.truthy resp_dict = true
         ∧ ∃ resp_json audio_b64 audio,
             loads_value Json.loads resp_dict = Ok resp_json
             ∧ Py.getitem resp_json 0 = Ok audio_b64
             ∧ Demo.b64decode audio_b64 = Ok audio
             ∧ VDict [("audio", VStr ""); ("status_code", VInt 200)]
               = VDict [("audio", VStr audio);
                        ("status_code", VInt (status_code resp))]).
Proof.
  apply (speech_mapping Json.loads Demo.b64decode
           Demo.TEXT_GENERATION_WEB_SERVER_PARAM Calls.spoken
           (Demo.client None) "hello" "en-US").
  vm_compute. reflexivity.
Defined.

(** An English client without API key and with [run_code] off gets the
    same answer whether the translation service is up or down. *)
Lemma get_answer_allowed_language_no_translator_witness :
  Demo.get_answer Calls.answered (Demo.client (Some "en"))
    "hello" None None None
  = Demo.get_answer
      (Demo.world_without_translation Demo.landing
         (Demo.page 200 (Demo.answer_body (Demo.resolved "c_1" "r_1" "rc_1" "Hi"))))
      (Demo.client (Some "en")) "hello" None None None.
Proof.
  unfold Demo.get_answer.
  apply (get_answer_allowed_language_no_translator Json.loads
           Utils.build_bard_answer Demo.ALLOWED_LANGUAGES
           Demo.TEXT_GENERATION_WEB_SERVER_PARAM unit (λ _, VStr "google_docs")).
  - reflexivity.
  - reflexivity.
  - intros l [= <-]. apply (bool_decide_unpack _). by vm_compute.
  - reflexivity.
  - reflexivity.
Defined.

(** Three calls with [run_code] off: the counter ends at its start plus
    100000 for some of them. *)
Lemma reqid_over_calls_witness :
  ∃ k : nat,
    (k ≤ 3)%nat
    ∧ _reqid (foldl (after Json.loads Utils.build_bard_answer
                       (H := Utils.result_model) Demo.b64decode (λ _, "")
                       Demo.ALLOWED_LANGUAGES
                       Demo.REPLIT_SUPPORT_PROGRAM_LANGUAGES
                       Demo.TEXT_GENERATION_WEB_SERVER_PARAM unit
                       (λ _, VStr "google_docs"))
                (Demo.client None) Calls.turns)
      = 42 + 100000 * Z.of_nat k.
Proof.
  apply (reqid_over_calls Json.loads Utils.build_bard_answer
           (H := Utils.result_model) Demo.b64decode (λ _, "")
           Demo.ALLOWED_LANGUAGES Demo.REPLIT_SUPPORT_PROGRAM_LANGUAGES
           Demo.TEXT_GENERATION_WEB_SERVER_PARAM unit (λ _, VStr "google_docs")
           Calls.turns (Demo.client None)).
  reflexivity.
Defined.

(** With [run_code] on, the snippet has the client and the mapping in its
    reach: what the call returns and what the client holds afterwards are
    what the snippet left. *)
Lemma get_answer_snippet_reaches_client :
  Demo.get_answer Calls.snippet Calls.runner "hello" None None None
  = (Ok (VDict []), Demo.client None).
Proof. by vm_compute. Qed.

(** The nonce of the worked landing page. *)
Lemma get_snim0e_values_witness :
  ∃ resp gs,
    http_get Calls.answered Demo.session0 "https://gemini.google.com/" = Ok resp
    ∧ status_code resp = 200
    ∧ VList [VStr "Xq3"] = VList (VStr <$> gs)
    ∧ Forall (λ g, g ≠ ""
                   ∧ Str.contains (String Str.dquote "") g = false
                   ∧ ∃ pre post,
                       text resp
                       = pre +:+ Nonce.opening +:+ g +:+ String Str.dquote post)
        gs.
Proof.
  apply (get_snim0e_values Calls.answered Demo.session0).
  vm_compute. reflexivity.
Defined.

Lemma get_snim0e_finds_nonce_witness :
  ∃ g' gs, _get_snim0e Calls.answered Demo.session0 = Ok (VList (VStr g' :: gs)).
Proof.
  apply (get_snim0e_finds_nonce Calls.answered Demo.session0 Demo.landing
           "<script " "Xq3" ">window.WIZ</script>").
  - reflexivity.
  - reflexivity.
  - vm_compute. reflexivity.
  - discriminate.
  - vm_compute. reflexivity.
Defined.
